(** * Telegrip teleoperator adapter: a shallow embedding and its properties

    Embedding of
      - src/lerobot/teleoperators/telegrip/config_telegrip.py  (TelegripConfig)
      - src/lerobot/teleoperators/telegrip/telegrip_teleop.py  (TelegripTeleoperator)

    Python objects become records, attribute assignment becomes a state
    update, [raise]/[try ... except] become an outcome type with a
    handler, and every call that leaves the adapter (logging, sleeping,
    telegrip, asyncio, threading) is recorded in a trace of effects. *)

From Stdlib Require Import String Ascii List ZArith Bool Permutation Lia.
From Stdlib Require Import SpecFloat.
Import ListNotations.
Local Open Scope list_scope.
Local Open Scope string_scope.

(* ===================================================================== *)
(** ** Python dictionaries *)
(* ===================================================================== *)

(** A [dict] keeps its keys in insertion order; assigning to a key that
    is already present replaces the value in place. *)
Module PyDict.
Section Dict.
Context {V : Type}.

Definition dict := list (string * V).

Definition empty : dict := [].

(** [d.get(k)] *)
Fixpoint get (k : string) (d : dict) : option V :=
  match d with
  | [] => None
  | (k', v) :: d' => if String.eqb k k' then Some v else get k d'
  end.

(** [d[k] = v] *)
Fixpoint set (k : string) (v : V) (d : dict) : dict :=
  match d with
  | [] => [(k, v)]
  | (k', v') :: d' =>
      if String.eqb k k' then (k', v) :: d' else (k', v') :: set k v d'
  end.

(** A display [{k1: v1, ...}] or a comprehension [{k: v for ...}]:
    the items are stored one after the other. *)
Definition of_items (items : list (string * V)) : dict :=
  fold_left (fun d kv => set (fst kv) (snd kv) d) items empty.

(** [d1 | d2] *)
Definition union (d1 d2 : dict) : dict :=
  fold_left (fun d kv => set (fst kv) (snd kv) d) d2 d1.

Definition keys (d : dict) : list string := map fst d.

Definition values (d : dict) : list V := map snd d.
End Dict.
Arguments dict : clear implicits.
End PyDict.

Abbreviation dict := PyDict.dict.

(* ===================================================================== *)
(** ** Python values, exceptions and effects *)
(* ===================================================================== *)

(** Pieces of an f-string: literal text and [{self}]. The string of the
    adapter comes from the base class [Teleoperator], which is outside
    this package, so it stays symbolic. *)
Inductive frag :=
| Lit (s : string)
| Self.

Definition text := list frag.

(** Exception classes. All of them derive from [Exception]; interrupts
    of the interpreter ([KeyboardInterrupt], [SystemExit]) are not
    modelled. *)
Inductive exc_class :=
| DeviceAlreadyConnectedError
| DeviceNotConnectedError
| AttributeError
| ImportError
| OverflowError
| RuntimeError
| TimeoutError
| OtherException (name : string).

Record exn := mkExn { exc_type : exc_class; exc_msg : text }.

(** How a call ends. *)
Inductive outcome (A : Type) :=
| Return (a : A)
| Raise (e : exn).
Arguments Return {A} a.
Arguments Raise {A} e.

(** The values a raw event record may carry. *)
Inductive pyval :=
| VNone
| VBool (b : bool)
| VInt (z : Z)
| VFloat (f : spec_float)
| VStr (s : string).

(** [v == s] for a string literal [s]. *)
Definition eq_str (v : pyval) (s : string) : bool :=
  match v with
  | VStr s' => String.eqb s' s
  | _ => false
  end.

(** A joint angle as the robot interface hands it over. *)
Inductive pynum :=
| PyInt (z : Z)
| PyFloat (f : spec_float).

(** [float(x)]: a float is returned as it is; an integer is rounded to
    the nearest binary64 value, and one too large raises
    [OverflowError]. *)
Definition float_of (x : pynum) : outcome spec_float :=
  match x with
  | PyFloat f => Return f
  | PyInt z =>
      match binary_normalize 53 1024 z 0 false with
      | S754_infinity _ =>
          Raise (mkExn OverflowError [Lit "int too large to convert to float"])
      | f => Return f
      end
  end.

(** The type objects stored in a feature mapping. *)
Inductive pytype := Float | Int | Str | Bool.

Inductive level := INFO | WARNING | ERROR.

(* ===================================================================== *)
(** ** config_telegrip.py *)
(* ===================================================================== *)

Record TelegripConfig := {
  bimanual : bool;
  left_arm_port : option string;
  right_arm_port : string;
  https_port : Z;
  websocket_port : Z;
  host_ip : string;
  log_level : string;
  autoconnect : bool;
  enable_robot : bool;
  enable_pybullet : bool;
  enable_pybullet_gui : bool;
  enable_vr : bool;
  enable_keyboard : bool
}.

(** [TelegripConfig()] with every default. *)
Definition TelegripConfig_default : TelegripConfig := {|
  bimanual := false;
  left_arm_port := None;
  right_arm_port := "/dev/ttyACM0";
  https_port := 8443;
  websocket_port := 8442;
  host_ip := "0.0.0.0";
  log_level := "warning";
  autoconnect := false;
  enable_robot := true;
  enable_pybullet := true;
  enable_pybullet_gui := true;
  enable_vr := true;
  enable_keyboard := true
|}.

(* ===================================================================== *)
(** ** The telegrip subsystem, as the adapter sees it *)
(* ===================================================================== *)

(** Keyword arguments of [telegrip.TelegripConfig(...)]. *)
Record TelegripSystemConfig := {
  follower_ports : dict string;
  sys_enable_robot : bool;
  sys_enable_pybullet : bool;
  sys_enable_pybullet_gui : bool;
  sys_enable_vr : bool;
  sys_enable_keyboard : bool;
  sys_autoconnect : bool;
  sys_log_level : string;
  sys_https_port : Z;
  sys_websocket_port : Z;
  sys_host_ip : string
}.

Record RobotInterface := {
  get_arm_angles : string -> outcome (list pynum);
  engage : outcome unit
}.

Record ControlLoop := {
  robot_interface : option RobotInterface
}.

Definition event := dict pyval.

(** What awaiting [stop()] for five seconds ends in. *)
Inductive stop_result :=
| StopCompleted
| StopRaised (e : exn)
| StopTimedOut.

(** [get_vr_events] is [None] when the object has no such attribute;
    [start] is what running the coroutine [start()] to completion ends
    in. *)
Record TelegripSystem := {
  is_running : bool;
  control_loop : option ControlLoop;
  get_vr_events : option (outcome (list event));
  start : outcome unit;
  stop : stop_result
}.

(** Handles of [asyncio] and [threading]. *)
Record Loop := { loop_id : nat }.
Record Thread := { thread_id : nat }.

(** Everything the adapter does outside itself, in program order. *)
Inductive effect :=
| Log (lvl : level) (msg : text) (exc : option exn)
| Sleep (seconds : Z)
| ImportTelegrip
| NewSystemConfig (c : TelegripSystemConfig)
| NewSystem (c : TelegripSystemConfig)
| ThreadStart (t : Thread)
| NewEventLoop
| SetEventLoop (l : Loop)
| RunUntilComplete (l : Loop)
| RunForever (l : Loop)
| LoopClose (l : Loop)
| Engage
| GetArmAngles (side : string)
| GetVrEvents
| RunCoroutineThreadsafe (l : Loop)
| FutResult (timeout : Z)
| CallSoonThreadsafe (l : Loop)
| ThreadJoin (t : Thread) (timeout : Z).

(* ===================================================================== *)
(** ** The adapter object and the monad its methods run in *)
(* ===================================================================== *)

Record TelegripTeleoperator := mkTeleop {
  config : TelegripConfig;
  _telegrip_system : option TelegripSystem;
  _is_connected : bool;
  _telegrip_thread : option Thread;
  _last_action : option (dict spec_float);
  _loop : option Loop;
  _left_arm_angles : list spec_float;
  _right_arm_angles : list spec_float
}.

Definition set_telegrip_system v (s : TelegripTeleoperator) :=
  mkTeleop (config s) v (_is_connected s) (_telegrip_thread s)
           (_last_action s) (_loop s) (_left_arm_angles s) (_right_arm_angles s).
Definition set_is_connected v (s : TelegripTeleoperator) :=
  mkTeleop (config s) (_telegrip_system s) v (_telegrip_thread s)
           (_last_action s) (_loop s) (_left_arm_angles s) (_right_arm_angles s).
Definition set_telegrip_thread v (s : TelegripTeleoperator) :=
  mkTeleop (config s) (_telegrip_system s) (_is_connected s) v
           (_last_action s) (_loop s) (_left_arm_angles s) (_right_arm_angles s).
Definition set_last_action v (s : TelegripTeleoperator) :=
  mkTeleop (config s) (_telegrip_system s) (_is_connected s) (_telegrip_thread s)
           v (_loop s) (_left_arm_angles s) (_right_arm_angles s).
Definition set_loop v (s : TelegripTeleoperator) :=
  mkTeleop (config s) (_telegrip_system s) (_is_connected s) (_telegrip_thread s)
           (_last_action s) v (_left_arm_angles s) (_right_arm_angles s).

(** A method: from the object before the call to how the call ended,
    the object after it and the effects it had. Attribute writes made
    before a [raise] stay. *)
Definition M (A : Type) : Type :=
  TelegripTeleoperator -> outcome A * TelegripTeleoperator * list effect.

Definition ret {A} (a : A) : M A := fun s => (Return a, s, []).

Definition bind {A B} (m : M A) (k : A -> M B) : M B :=
  fun s =>
    match m s with
    | (Return a, s1, t1) =>
        match k a s1 with
        | (r, s2, t2) => (r, s2, (t1 ++ t2)%list)
        end
    | (Raise e, s1, t1) => (Raise e, s1, t1)
    end.

Definition raise {A} (e : exn) : M A := fun s => (Raise e, s, []).

(** [try: m  except Exception as e: h e] *)
Definition try_except {A} (m : M A) (h : exn -> M A) : M A :=
  fun s =>
    match m s with
    | (Return a, s1, t1) => (Return a, s1, t1)
    | (Raise e, s1, t1) =>
        match h e s1 with
        | (r, s2, t2) => (r, s2, (t1 ++ t2)%list)
        end
    end.

Definition gets {A} (f : TelegripTeleoperator -> A) : M A :=
  fun s => (Return (f s), s, []).

Definition modify (f : TelegripTeleoperator -> TelegripTeleoperator) : M unit :=
  fun s => (Return tt, f s, []).

Definition emit (e : effect) : M unit := fun s => (Return tt, s, [e]).

(** A call into another library: the effect is recorded, then the call
    returns or raises. *)
Definition call {A} (e : effect) (r : outcome A) : M A :=
  fun s => (r, s, [e]).

(** A computation of the interpreter itself (no effect recorded). *)
Definition lift {A} (r : outcome A) : M A := fun s => (r, s, []).

Definition log (lvl : level) (msg : text) : M unit := emit (Log lvl msg None).
Definition log_exc (lvl : level) (msg : text) (e : exn) : M unit :=
  emit (Log lvl msg (Some e)).

Notation "x <- m ;; k" := (bind m (fun x => k))
  (at level 61, m at next level, right associativity).
Notation "m ;; k" := (bind m (fun _ => k))
  (at level 61, right associativity).

(** [for x in l: acc = body acc x] *)
Fixpoint for_each {A B} (l : list A) (body : B -> A -> M B) (acc : B) : M B :=
  match l with
  | [] => ret acc
  | x :: l' => acc' <- body acc x ;; for_each l' body acc'
  end.

Definition result {A} (r : outcome A * TelegripTeleoperator * list effect) := fst (fst r).
Definition final {A} (r : outcome A * TelegripTeleoperator * list effect) := snd (fst r).
Definition trace {A} (r : outcome A * TelegripTeleoperator * list effect) := snd r.

(* ===================================================================== *)
(** ** telegrip_teleop.py: TelegripTeleoperator *)
(* ===================================================================== *)

(** Modelled from the spec: the enumeration [TeleopEvents] of
    [lerobot.teleoperators.utils] is imported by the adapter but defined
    outside this package. The spec names its five signals success,
    failure, rerecord, intervention and terminate; [value] gives the
    key each member stands for. *)
Module TeleopEvents.
Inductive t :=
| SUCCESS
| FAILURE
| RERECORD_EPISODE
| IS_INTERVENTION
| TERMINATE_EPISODE.

Definition value (e : t) : string :=
  match e with
  | SUCCESS => "success"
  | FAILURE => "failure"
  | RERECORD_EPISODE => "rerecord"
  | IS_INTERVENTION => "intervention"
  | TERMINATE_EPISODE => "terminate"
  end.
End TeleopEvents.

(** [np.zeros(6)] *)
Definition zeros6 : list spec_float := repeat (S754_zero false) 6.

(** [self._motor_names]: assigned once in [__init__] and never written
    again, so it is a constant of the class. *)
Definition _motor_names : list string :=
  [ "shoulder_pan";
    "shoulder_lift";
    "elbow_flex";
    "wrist_flex";
    "wrist_roll";
    "gripper" ].

Definition __init__ (cfg : TelegripConfig) : TelegripTeleoperator := {|
  config := cfg;
  _telegrip_system := None;
  _is_connected := false;
  _telegrip_thread := None;
  _last_action := None;
  _loop := None;
  _left_arm_angles := zeros6;
  _right_arm_angles := zeros6
|}.

(** [action_features] *)
Definition action_features (self : TelegripTeleoperator) : dict pytype :=
  if bimanual (config self) then
    PyDict.union
      (PyDict.of_items (map (fun motor => ("left_" ++ motor ++ ".pos", Float)) _motor_names))
      (PyDict.of_items (map (fun motor => ("right_" ++ motor ++ ".pos", Float)) _motor_names))
  else
    PyDict.of_items (map (fun motor => (motor ++ ".pos", Float)) _motor_names).

(** [feedback_features] *)
Definition feedback_features (self : TelegripTeleoperator) : dict pytype :=
  PyDict.empty.

(** [is_connected] *)
Definition is_connected (self : TelegripTeleoperator) : bool :=
  match _telegrip_system self with
  | None => false
  | Some sys => is_running sys && _is_connected self
  end.

(** [is_calibrated], [calibrate], [configure], [send_feedback] *)
Definition is_calibrated (self : TelegripTeleoperator) : bool := true.
Definition calibrate : M unit := ret tt.
Definition configure : M unit := ret tt.
Definition send_feedback (feedback : dict spec_float) : M unit := ret tt.

Definition none_has_no_attribute (a : string) : exn :=
  mkExn AttributeError [Lit ("'NoneType' object has no attribute '" ++ a ++ "'")].

(** What the libraries called by [connect] answer during one call.
    [new_event_loop] is [None] when the background thread has not yet
    run by the time [connect] is over, and otherwise what
    [asyncio.new_event_loop()] answers in that thread. *)
Record ConnectWorld := {
  import_telegrip : outcome unit;
  new_TelegripSystemConfig : TelegripSystemConfig -> outcome unit;
  new_TelegripSystem : TelegripSystemConfig -> outcome TelegripSystem;
  new_Thread : Thread;
  Thread_start : outcome unit;
  new_event_loop : option (outcome Loop)
}.

(** [run_telegrip_in_thread], the target of the background thread, up
    to the point where it blocks in [run_forever]: the [finally] clause
    is reached within this run only when [start()] raises. *)
Definition run_telegrip_in_thread (answer : outcome Loop) : M unit :=
  l <- call NewEventLoop answer ;;
  modify (set_loop (Some l)) ;;
  emit (SetEventLoop l) ;;
  try_except
    (sys <- gets _telegrip_system ;;
     match sys with
     | None => raise (none_has_no_attribute "start")
     | Some sys => call (RunUntilComplete l) (start sys)
     end ;;
     emit (RunForever l))
    (fun e =>
       log_exc ERROR [Lit "Error in telegrip thread: "] e ;;
       emit (LoopClose l)).

(** A started thread runs on its own: what its target raises ends the
    thread and does not reach the caller. The effects of the thread are
    recorded where the caller starts waiting. *)
Definition in_background (target : M unit) : M unit :=
  fun s =>
    match target s with
    | (_, s1, t1) => (Return tt, s1, t1)
    end.

(** [x or default] on an optional string: [None] and the empty string
    are both false. *)
Definition or_default (x : option string) (default : string) : string :=
  match x with
  | None => default
  | Some "" => default
  | Some p => p
  end.

Definition telegrip_config_of (cfg : TelegripConfig) : TelegripSystemConfig := {|
  follower_ports :=
    PyDict.of_items
      [ ("left", or_default (left_arm_port cfg) "/dev/ttySO100red");
        ("right", right_arm_port cfg) ];
  sys_enable_robot := enable_robot cfg;
  sys_enable_pybullet := enable_pybullet cfg;
  sys_enable_pybullet_gui := enable_pybullet_gui cfg;
  sys_enable_vr := enable_vr cfg;
  sys_enable_keyboard := enable_keyboard cfg;
  sys_autoconnect := autoconnect cfg;
  sys_log_level := log_level cfg;
  sys_https_port := https_port cfg;
  sys_websocket_port := websocket_port cfg;
  sys_host_ip := host_ip cfg
|}.

(** [connect] *)
Definition connect (w : ConnectWorld) (calibrate : bool) : M unit :=
  c <- gets is_connected ;;
  if c then
    raise (mkExn DeviceAlreadyConnectedError [Self; Lit " already connected"])
  else
    log INFO [Lit "Starting telegrip system..."] ;;
    try_except
      (call ImportTelegrip (import_telegrip w) ;;
       cfg <- gets config ;;
       let telegrip_config := telegrip_config_of cfg in
       call (NewSystemConfig telegrip_config)
            (new_TelegripSystemConfig w telegrip_config) ;;
       sys <- call (NewSystem telegrip_config)
                   (new_TelegripSystem w telegrip_config) ;;
       modify (set_telegrip_system (Some sys)) ;;
       modify (set_telegrip_thread (Some (new_Thread w))) ;;
       call (ThreadStart (new_Thread w)) (Thread_start w) ;;
       match new_event_loop w with
       | Some answer => in_background (run_telegrip_in_thread answer)
       | None => ret tt
       end ;;
       emit (Sleep 2) ;;
       (if autoconnect cfg && enable_robot cfg then
          log INFO [Lit "Auto-engaging robot motors..."] ;;
          emit (Sleep 1) ;;
          sys <- gets _telegrip_system ;;
          match sys with
          | None => raise (none_has_no_attribute "control_loop")
          | Some sys =>
              match control_loop sys with
              | Some cl =>
                  match robot_interface cl with
                  | Some ri => call Engage (engage ri)
                  | None => ret tt
                  end
              | None => ret tt
              end
          end
        else ret tt) ;;
       modify (set_is_connected true) ;;
       log INFO [Self; Lit " connected successfully"])
      (fun e =>
         log_exc ERROR [Lit "Failed to connect telegrip: "] e ;;
         modify (set_is_connected false) ;;
         raise e).

(** [zip(self._motor_names, angles)] followed by
    [action[f"{prefix}{motor_name}.pos"] = float(angle)] for each pair. *)
Definition store_angles (prefix : string) (angles : list pynum)
    (action : dict spec_float) : M (dict spec_float) :=
  for_each (combine _motor_names angles)
    (fun action p =>
       f <- lift (float_of (snd p)) ;;
       ret (PyDict.set (prefix ++ fst p ++ ".pos") f action))
    action.

(** [get_action] *)
Definition get_action : M (dict spec_float) :=
  c <- gets is_connected ;;
  if negb c then
    raise (mkExn DeviceNotConnectedError
             [Lit "Telegrip is not connected. You need to run `connect()` before `get_action()`."])
  else
    try_except
      (let action := PyDict.empty in
       sys <- gets _telegrip_system ;;
       cfg <- gets config ;;
       action <-
         match sys with
         | None => raise (none_has_no_attribute "control_loop")
         | Some sys =>
             match control_loop sys with
             | None => raise (none_has_no_attribute "robot_interface")
             | Some cl =>
                 match robot_interface cl with
                 | Some robot_interface =>
                     if bimanual cfg then
                       left_angles <- call (GetArmAngles "left")
                                           (get_arm_angles robot_interface "left") ;;
                       action <- store_angles "left_" left_angles action ;;
                       right_angles <- call (GetArmAngles "right")
                                            (get_arm_angles robot_interface "right") ;;
                       store_angles "right_" right_angles action
                     else
                       right_angles <- call (GetArmAngles "right")
                                            (get_arm_angles robot_interface "right") ;;
                       store_angles "" right_angles action
                 | None =>
                     log WARNING [Lit "Robot interface not available in telegrip system"] ;;
                     ret action
                 end
             end
         end ;;
       modify (set_last_action (Some action)) ;;
       ret action)
      (fun e =>
         log_exc ERROR [Lit "Error getting action from telegrip: "] e ;;
         raise e).

(** [_drain_vr_events] *)
Definition _drain_vr_events : M (list event) :=
  sys <- gets _telegrip_system ;;
  match sys with
  | None => ret []
  | Some sys =>
      match get_vr_events sys with
      | None => ret []
      | Some answer =>
          try_except
            (call GetVrEvents answer)
            (fun e =>
               log_exc WARNING [Lit "Error pulling VR events from telegrip: "] e ;;
               ret [])
      end
  end.

(** The dictionary [get_teleop_events] starts from. *)
Definition initial_events : dict bool :=
  PyDict.of_items
    [ (TeleopEvents.value TeleopEvents.SUCCESS, false);
      (TeleopEvents.value TeleopEvents.FAILURE, false);
      (TeleopEvents.value TeleopEvents.RERECORD_EPISODE, false);
      (TeleopEvents.value TeleopEvents.IS_INTERVENTION, false);
      (TeleopEvents.value TeleopEvents.TERMINATE_EPISODE, false) ].

(** [event.get("type")]: [None] when the key is missing. *)
Definition event_type_of (ev : event) : pyval :=
  match PyDict.get "type" ev with
  | Some v => v
  | None => VNone
  end.

(** The body of the loop over the drained events. *)
Definition fold_event (events : dict bool) (ev : event) : M (dict bool) :=
  let event_type := event_type_of ev in
  if eq_str event_type "button_a" then
    log INFO [Lit "Telegrip: button A event received -> terminate episode (mark success)"] ;;
    ret (PyDict.set (TeleopEvents.value TeleopEvents.TERMINATE_EPISODE) true
           (PyDict.set (TeleopEvents.value TeleopEvents.SUCCESS) true events))
  else if eq_str event_type "button_b" then
    log INFO [Lit "Telegrip: button B event received -> terminate and rerecord episode"] ;;
    ret (PyDict.set (TeleopEvents.value TeleopEvents.TERMINATE_EPISODE) true
           (PyDict.set (TeleopEvents.value TeleopEvents.RERECORD_EPISODE) true events))
  else
    ret events.

(** [get_teleop_events] *)
Definition get_teleop_events : M (dict bool) :=
  let events := initial_events in
  drained <- _drain_vr_events ;;
  for_each drained fold_event events.

(** What [asyncio] and [threading] answer during one [disconnect].
    [run_coroutine_threadsafe] covers building the coroutine [stop()]
    and handing it to the loop; it raises when the loop is closed. *)
Record DisconnectWorld := {
  run_coroutine_threadsafe : outcome unit;
  call_soon_threadsafe : outcome unit;
  Thread_join : outcome unit
}.

(** [fut.result(timeout=5)] *)
Definition fut_result (r : stop_result) : outcome unit :=
  match r with
  | StopCompleted => Return tt
  | StopRaised e => Raise e
  | StopTimedOut => Raise (mkExn TimeoutError [])
  end.

(** [disconnect] *)
Definition disconnect (w : DisconnectWorld) : M unit :=
  c <- gets is_connected ;;
  if negb c then
    raise (mkExn DeviceNotConnectedError [Self; Lit " is not connected."])
  else
    log INFO [Lit "Stopping telegrip system..."] ;;
    try_except
      (sys <- gets _telegrip_system ;;
       lp <- gets _loop ;;
       match sys, lp with
       | Some sys, Some lp =>
           call (RunCoroutineThreadsafe lp) (run_coroutine_threadsafe w) ;;
           try_except
             (call (FutResult 5) (fut_result (stop sys)))
             (fun e =>
                log_exc WARNING [Lit "Timed out or failed stopping telegrip cleanly: "] e) ;;
           call (CallSoonThreadsafe lp) (call_soon_threadsafe w) ;;
           th <- gets _telegrip_thread ;;
           match th with
           | Some t => call (ThreadJoin t 5) (Thread_join w)
           | None => ret tt
           end ;;
           modify (set_loop None) ;;
           modify (set_telegrip_system None) ;;
           modify (set_telegrip_thread None)
       | _, _ => ret tt
       end ;;
       modify (set_is_connected false) ;;
       log INFO [Self; Lit " disconnected successfully"])
      (fun e =>
         log_exc ERROR [Lit "Error disconnecting telegrip: "] e ;;
         raise e).

(* ===================================================================== *)
(** ** Vocabulary of the statements *)
(* ===================================================================== *)

(** The five-signal mapping with the given flags, in the key order of
    the dictionary [get_teleop_events] builds. *)
Definition signals (success failure rerecord intervention terminate : bool)
    : dict bool :=
  [ (TeleopEvents.value TeleopEvents.SUCCESS, success);
    (TeleopEvents.value TeleopEvents.FAILURE, failure);
    (TeleopEvents.value TeleopEvents.RERECORD_EPISODE, rerecord);
    (TeleopEvents.value TeleopEvents.IS_INTERVENTION, intervention);
    (TeleopEvents.value TeleopEvents.TERMINATE_EPISODE, terminate) ].

(** The event has the given type tag. *)
Definition has_type (tag : string) (ev : event) : bool :=
  eq_str (event_type_of ev) tag.

(** The raw events one poll of the adapter pulls. *)
Definition pulled (self : TelegripTeleoperator) : list event :=
  match result (_drain_vr_events self) with
  | Return evs => evs
  | Raise _ => []
  end.

(** The integer a binary64 value stands for, when it is one. *)
Definition integer_value (f : spec_float) : option Z :=
  match f with
  | S754_zero _ => Some 0%Z
  | S754_finite s m e =>
      let n := if s then Z.neg m else Z.pos m in
      match e with
      | Z0 => Some n
      | Zpos p => Some (n * 2 ^ Zpos p)%Z
      | Zneg p =>
          if (n mod 2 ^ Zpos p =? 0)%Z then Some (n / 2 ^ Zpos p)%Z else None
      end
  | _ => None
  end.

(** The angle [x] is the number [z], as an integer or as a float. *)
Definition reads_as (x : pynum) (z : Z) : Prop :=
  float_of x = float_of (PyInt z).

(** The calls to [get_arm_angles] in a trace, by side. *)
Fixpoint sides_queried (t : list effect) : list string :=
  match t with
  | [] => []
  | GetArmAngles side :: t' => side :: sides_queried t'
  | _ :: t' => sides_queried t'
  end.

(** The last effect of a trace. *)
Definition last_effect (t : list effect) : option effect :=
  match rev t with
  | [] => None
  | e :: _ => Some e
  end.

(** The record [get_action] logs before it re-raises [e]. *)
Definition error_logged (e : exn) : effect :=
  Log ERROR [Lit "Error getting action from telegrip: "] (Some e).

(** The record [get_action] logs when there is no robot interface. *)
Definition interface_missing_logged : effect :=
  Log WARNING [Lit "Robot interface not available in telegrip system"] None.

(** The action record of the bimanual example: the floats 1.0 to 6.0
    for the left arm and 7.0 to 12.0 for the right arm. *)
Definition action_1_to_12 : dict spec_float :=
  [ ("left_shoulder_pan.pos", S754_finite false 4503599627370496 (-52));
    ("left_shoulder_lift.pos", S754_finite false 4503599627370496 (-51));
    ("left_elbow_flex.pos", S754_finite false 6755399441055744 (-51));
    ("left_wrist_flex.pos", S754_finite false 4503599627370496 (-50));
    ("left_wrist_roll.pos", S754_finite false 5629499534213120 (-50));
    ("left_gripper.pos", S754_finite false 6755399441055744 (-50));
    ("right_shoulder_pan.pos", S754_finite false 7881299347898368 (-50));
    ("right_shoulder_lift.pos", S754_finite false 4503599627370496 (-49));
    ("right_elbow_flex.pos", S754_finite false 5066549580791808 (-49));
    ("right_wrist_flex.pos", S754_finite false 5629499534213120 (-49));
    ("right_wrist_roll.pos", S754_finite false 6192449487634432 (-49));
    ("right_gripper.pos", S754_finite false 6755399441055744 (-49)) ].

Definition motor_keys : list string :=
  [ "shoulder_pan.pos"; "shoulder_lift.pos"; "elbow_flex.pos";
    "wrist_flex.pos"; "wrist_roll.pos"; "gripper.pos" ].

Definition left_motor_keys : list string :=
  [ "left_shoulder_pan.pos"; "left_shoulder_lift.pos"; "left_elbow_flex.pos";
    "left_wrist_flex.pos"; "left_wrist_roll.pos"; "left_gripper.pos" ].

Definition right_motor_keys : list string :=
  [ "right_shoulder_pan.pos"; "right_shoulder_lift.pos"; "right_elbow_flex.pos";
    "right_wrist_flex.pos"; "right_wrist_roll.pos"; "right_gripper.pos" ].

(** The steps of the setup [connect] runs in its own thread. *)
Inductive stage :=
| Importing
| Configuring
| Constructing
| Launching
| Engaging.

(** The first step of the setup that raises, if any, for an adapter
    with configuration [cfg]. *)
Definition first_failure (w : ConnectWorld) (cfg : TelegripConfig)
    : option (stage * exn) :=
  let telegrip_config := telegrip_config_of cfg in
  match import_telegrip w with
  | Raise e => Some (Importing, e)
  | Return _ =>
  match new_TelegripSystemConfig w telegrip_config with
  | Raise e => Some (Configuring, e)
  | Return _ =>
  match new_TelegripSystem w telegrip_config with
  | Raise e => Some (Constructing, e)
  | Return sys =>
  match Thread_start w with
  | Raise e => Some (Launching, e)
  | Return _ =>
      if autoconnect cfg && enable_robot cfg then
        match control_loop sys with
        | Some cl =>
            match robot_interface cl with
            | Some ri =>
                match engage ri with
                | Raise e => Some (Engaging, e)
                | Return _ => None
                end
            | None => None
            end
        | None => None
        end
      else None
  end end end end.

(** The record [connect] logs before it re-raises [e]. *)
Definition connect_failure_logged (e : exn) : effect :=
  Log ERROR [Lit "Failed to connect telegrip: "] (Some e).

(* ===================================================================== *)
(** ** Concrete subsystems and adapters *)
(* ===================================================================== *)

Definition button_a_event : event := [("type", VStr "button_a")].
Definition button_b_event : event := [("type", VStr "button_b")].
Definition unknown_event : event := [("type", VStr "unknown")].

Definition serial_error : exn :=
  mkExn (OtherException "SerialException") [Lit "could not open port"].

(** A robot interface reporting 1..6 on the left and 7..12 on the
    right, whose motors engage. *)
Definition arms_1_to_12 : RobotInterface := {|
  get_arm_angles := fun side =>
    if String.eqb side "left" then Return (map PyInt [1; 2; 3; 4; 5; 6]%Z)
    else if String.eqb side "right" then Return (map PyInt [7; 8; 9; 10; 11; 12]%Z)
    else Raise (mkExn (OtherException "KeyError") [Lit side]);
  engage := Return tt
|}.

(** A robot interface whose serial link is down. *)
Definition arms_unplugged : RobotInterface := {|
  get_arm_angles := fun _ => Raise serial_error;
  engage := Raise serial_error
|}.

(** A running subsystem with the given robot interface and pending
    events, whose [stop()] does not finish in time. *)
Definition running_system (ri : option RobotInterface) (evs : list event)
    : TelegripSystem := {|
  is_running := true;
  control_loop := Some {| robot_interface := ri |};
  get_vr_events := Some (Return evs);
  start := Return tt;
  stop := StopTimedOut
|}.

Definition TelegripConfig_with (bimanual autoconnect : bool) : TelegripConfig := {|
  bimanual := bimanual;
  left_arm_port := None;
  right_arm_port := "/dev/ttyACM0";
  https_port := 8443;
  websocket_port := 8442;
  host_ip := "0.0.0.0";
  log_level := "warning";
  autoconnect := autoconnect;
  enable_robot := true;
  enable_pybullet := true;
  enable_pybullet_gui := true;
  enable_vr := true;
  enable_keyboard := true
|}.

Definition thread1 : Thread := {| thread_id := 1 |}.
Definition loop1 : Loop := {| loop_id := 1 |}.

(** A world in which telegrip loads and builds the given subsystem and
    the thread starts; [answer] says how far the thread got. *)
Definition world_with (sys : TelegripSystem) (answer : option (outcome Loop))
    : ConnectWorld := {|
  import_telegrip := Return tt;
  new_TelegripSystemConfig := fun _ => Return tt;
  new_TelegripSystem := fun _ => Return sys;
  new_Thread := thread1;
  Thread_start := Return tt;
  new_event_loop := answer
|}.

(** The adapter after a successful [connect] to the given subsystem. *)
Definition connected_to (cfg : TelegripConfig) (sys : TelegripSystem)
    : TelegripTeleoperator :=
  final (connect (world_with sys (Some (Return loop1))) true (__init__ cfg)).

(** The adapter after a [connect] that returned before the background
    thread had created its loop. *)
Definition connected_before_loop : TelegripTeleoperator :=
  final (connect (world_with (running_system None []) None) true
           (__init__ TelegripConfig_default)).

(** [asyncio] and [threading] answering without an error. *)
Definition asyncio_ok : DisconnectWorld := {|
  run_coroutine_threadsafe := Return tt;
  call_soon_threadsafe := Return tt;
  Thread_join := Return tt
|}.

(* ===================================================================== *)
(** ** Vocabulary of the further properties *)
(* ===================================================================== *)

(** What [disconnect] logs when awaiting [stop()] did not end well. *)
Definition stop_warning (r : stop_result) : list effect :=
  match fut_result r with
  | Return _ => []
  | Raise e =>
      [Log WARNING [Lit "Timed out or failed stopping telegrip cleanly: "] (Some e)]
  end.

(** The adapter with its connection flag off and without a reference
    to a subsystem, a thread or a loop. *)
Definition released (self : TelegripTeleoperator) : TelegripTeleoperator :=
  mkTeleop (config self) None false None (_last_action self) None
           (_left_arm_angles self) (_right_arm_angles self).

(** The number of [engage()] calls in a trace. *)
Fixpoint engage_calls (t : list effect) : nat :=
  match t with
  | [] => 0
  | Engage :: t' => S (engage_calls t')
  | _ :: t' => engage_calls t'
  end.

(** The seconds spent in [time.sleep] in a trace. *)
Fixpoint seconds_slept (t : list effect) : Z :=
  match t with
  | [] => 0
  | Sleep n :: t' => n + seconds_slept t'
  | _ :: t' => seconds_slept t'
  end.

(** The records logged at a given level in a trace. *)
Fixpoint logged (lvl : level) (t : list effect) : list (text * option exn) :=
  match t with
  | [] => []
  | Log l msg exc :: t' =>
      match l, lvl with
      | INFO, INFO | WARNING, WARNING | ERROR, ERROR => (msg, exc) :: logged lvl t'
      | _, _ => logged lvl t'
      end
  | _ :: t' => logged lvl t'
  end.

Definition not_connected_get_action : exn :=
  mkExn DeviceNotConnectedError
    [Lit "Telegrip is not connected. You need to run `connect()` before `get_action()`."].

Definition not_connected_disconnect : exn :=
  mkExn DeviceNotConnectedError [Self; Lit " is not connected."].

(** The record [_drain_vr_events] logs when the pull raises [e]. *)
Definition pull_failure_logged (e : exn) : effect :=
  Log WARNING [Lit "Error pulling VR events from telegrip: "] (Some e).

(** The record [disconnect] logs before it re-raises [e]. *)
Definition disconnect_failure_logged (e : exn) : effect :=
  Log ERROR [Lit "Error disconnecting telegrip: "] (Some e).

(** A robot interface reporting three angles per arm. *)
Definition arms_three_angles : RobotInterface := {|
  get_arm_angles := fun _ => Return (map PyInt [1; 2; 3]%Z);
  engage := Return tt
|}.

(** A robot interface reporting eight angles per arm. *)
Definition arms_eight_angles : RobotInterface := {|
  get_arm_angles := fun _ => Return (map PyInt [1; 2; 3; 4; 5; 6; 7; 8]%Z);
  engage := Return tt
|}.

(** Raw events without a usable type tag. *)
Definition untyped_event : event := [("button", VStr "button_a")].
Definition numbered_event : event := [("type", VInt 1)].

Definition websocket_error : exn :=
  mkExn (OtherException "ConnectionClosed") [Lit "websocket closed"].

(** A running subsystem whose event queue cannot be read. *)
Definition system_failing_pull : TelegripSystem := {|
  is_running := true;
  control_loop := Some {| robot_interface := None |};
  get_vr_events := Some (Raise websocket_error);
  start := Return tt;
  stop := StopCompleted
|}.

(** A subsystem whose [start()] raises and which never runs. *)
Definition system_failing_start : TelegripSystem := {|
  is_running := false;
  control_loop := None;
  get_vr_events := None;
  start := Raise serial_error;
  stop := StopCompleted
|}.

Definition loop_closed_error : exn :=
  mkExn RuntimeError [Lit "Event loop is closed"].

(** [asyncio] refusing work because the loop is closed. *)
Definition asyncio_loop_closed : DisconnectWorld := {|
  run_coroutine_threadsafe := Raise loop_closed_error;
  call_soon_threadsafe := Raise loop_closed_error;
  Thread_join := Return tt
|}.

(** The records the fold over a batch of raw events logs: one per
    button event, in the order of the batch. *)
Definition button_records (evs : list event) : list (text * option exn) :=
  flat_map
    (fun ev =>
       if has_type "button_a" ev then
         [([Lit "Telegrip: button A event received -> terminate episode (mark success)"],
           None)]
       else if has_type "button_b" ev then
         [([Lit "Telegrip: button B event received -> terminate and rerecord episode"],
           None)]
       else [])
    evs.

(** The event is not a button event: it has no "type" entry, or its
    type is not a string, or it is a string other than the two tags. *)
Definition not_a_button (ev : event) : Prop :=
  match PyDict.get "type" ev with
  | Some (VStr s) => s <> "button_a" /\ s <> "button_b"
  | _ => True
  end.

(** The configurations handed to the constructor [TelegripSystem] in
    a trace. *)
Fixpoint systems_built (t : list effect) : list TelegripSystemConfig :=
  match t with
  | [] => []
  | NewSystem c :: t' => c :: systems_built t'
  | _ :: t' => systems_built t'
  end.

(** A running subsystem that has no control loop, and so exposes no
    robot interface. *)
Definition running_without_control_loop : TelegripSystem := {|
  is_running := true;
  control_loop := None;
  get_vr_events := None;
  start := Return tt;
  stop := StopCompleted
|}.

(* ===================================================================== *)
(** ** Folding the raw events *)
(* ===================================================================== *)

Arguments is_connected : simpl never.

Ltac run := unfold bind, ret, raise, gets, modify, emit, call, lift, log,
  log_exc, try_except, result, final, trace; simpl.

(** One step of the loop only raises flags: from the mapping holding
    [a] for success and [b] for rerecord it leads to the mapping
    holding [a || is button_a] and [b || is button_b]. *)
Lemma fold_event_step a b ev self :
  exists t,
    fold_event (signals a false b false (a || b)) ev self
    = (Return (signals (a || has_type "button_a" ev) false
                       (b || has_type "button_b" ev) false
                       ((a || has_type "button_a" ev) || (b || has_type "button_b" ev))),
       self, t).
Proof.
  unfold fold_event, has_type.
  destruct (eq_str (event_type_of ev) "button_a") eqn:Ha.
  - assert (Hb : eq_str (event_type_of ev) "button_b" = false).
    { unfold eq_str in *. destruct (event_type_of ev); try reflexivity.
      apply String.eqb_eq in Ha. subst. reflexivity. }
    rewrite Hb. eexists. run.
    rewrite !orb_true_r, !orb_false_r. simpl. reflexivity.
  - destruct (eq_str (event_type_of ev) "button_b") eqn:Hb.
    + eexists. run. rewrite !orb_true_r, !orb_false_r. reflexivity.
    + eexists. run. rewrite !orb_false_r. reflexivity.
Qed.

Lemma for_each_fold_event evs : forall a b self,
  exists t,
    for_each evs fold_event (signals a false b false (a || b)) self
    = (Return (signals (a || existsb (has_type "button_a") evs) false
                       (b || existsb (has_type "button_b") evs) false
                       ((a || existsb (has_type "button_a") evs)
                        || (b || existsb (has_type "button_b") evs))),
       self, t).
Proof.
  induction evs as [|ev evs IH]; intros a b self; simpl.
  - exists []. unfold ret. rewrite !orb_false_r. reflexivity.
  - destruct (fold_event_step a b ev self) as [t1 H1].
    destruct (IH (a || has_type "button_a" ev) (b || has_type "button_b" ev) self)
      as [t2 H2].
    exists (t1 ++ t2)%list. unfold bind. rewrite H1, H2.
    rewrite !orb_assoc. reflexivity.
Qed.

(** Pulling the events never raises and leaves the adapter as it is. *)
Lemma drain_returns self :
  exists t, _drain_vr_events self = (Return (pulled self), self, t).
Proof.
  unfold pulled, _drain_vr_events. run.
  destruct (_telegrip_system self) as [sys|]; simpl; [|eexists; reflexivity].
  destruct (get_vr_events sys) as [[evs|e]|]; simpl; eexists; reflexivity.
Qed.

(** The result of a poll is read off the pulled events: success iff a
    button_a event is among them, rerecord iff a button_b event is,
    terminate iff either. *)
Lemma get_teleop_events_spec self :
  exists t,
    get_teleop_events self
    = (Return (signals (existsb (has_type "button_a") (pulled self)) false
                       (existsb (has_type "button_b") (pulled self)) false
                       (existsb (has_type "button_a") (pulled self)
                        || existsb (has_type "button_b") (pulled self))),
       self, t).
Proof.
  unfold get_teleop_events.
  destruct (drain_returns self) as [t1 H1].
  destruct (for_each_fold_event (pulled self) false false self) as [t2 H2].
  exists (t1 ++ t2)%list. unfold bind. rewrite H1.
  change initial_events with (signals false false false false (false || false)).
  rewrite H2. reflexivity.
Qed.

Lemma existsb_Permutation {A} (f : A -> bool) l1 l2 :
  Permutation l1 l2 -> existsb f l1 = existsb f l2.
Proof.
  induction 1; simpl.
  - reflexivity.
  - now rewrite IHPermutation.
  - destruct (f x), (f y); reflexivity.
  - congruence.
Qed.

Lemma existsb_In_true {A} (f : A -> bool) l x :
  In x l -> f x = true -> existsb f l = true.
Proof.
  intros Hin Hx. apply existsb_exists. exists x. split; assumption.
Qed.

(** C1. A poll that pulls one button_a event yields success and
    terminate and nothing else; one button_b event yields rerecord and
    terminate and nothing else; one event of any other type yields the
    all-false mapping; a batch holding both a button_a and a button_b
    event yields success, rerecord and terminate, with failure and
    intervention false. *)
Theorem get_teleop_events_folds (self : TelegripTeleoperator) :
  (forall ev, pulled self = [ev] -> has_type "button_a" ev = true ->
     result (get_teleop_events self) = Return (signals true false false false true))
  /\ (forall ev, pulled self = [ev] -> has_type "button_b" ev = true ->
     result (get_teleop_events self) = Return (signals false false true false true))
  /\ (forall ev, pulled self = [ev] ->
     has_type "button_a" ev = false -> has_type "button_b" ev = false ->
     result (get_teleop_events self) = Return (signals false false false false false))
  /\ (forall ea eb, In ea (pulled self) -> In eb (pulled self) ->
     has_type "button_a" ea = true -> has_type "button_b" eb = true ->
     result (get_teleop_events self) = Return (signals true false true false true)).
Proof.
  destruct (get_teleop_events_spec self) as [t Hspec].
  rewrite Hspec. unfold result. simpl fst.
  repeat split.
  - intros ev Hp Ha. rewrite Hp. simpl. rewrite Ha.
    assert (Hb : has_type "button_b" ev = false).
    { unfold has_type, eq_str in *. destruct (event_type_of ev); try reflexivity.
      apply String.eqb_eq in Ha. subst. reflexivity. }
    rewrite Hb. reflexivity.
  - intros ev Hp Hb. rewrite Hp. simpl. rewrite Hb.
    assert (Ha : has_type "button_a" ev = false).
    { unfold has_type, eq_str in *. destruct (event_type_of ev); try reflexivity.
      apply String.eqb_eq in Hb. subst. reflexivity. }
    rewrite Ha. reflexivity.
  - intros ev Hp Ha Hb. rewrite Hp. simpl. rewrite Ha, Hb. reflexivity.
  - intros ea eb Hia Hib Ha Hb.
    rewrite (existsb_In_true _ _ _ Hia Ha), (existsb_In_true _ _ _ Hib Hb).
    reflexivity.
Qed.

(** C9. Two polls whose pulled event sequences are permutations of each
    other give the same five-signal result, and an event that repeats
    one already in the batch changes nothing. *)
Theorem get_teleop_events_order_independent (self1 self2 : TelegripTeleoperator) :
  (Permutation (pulled self1) (pulled self2) ->
     result (get_teleop_events self1) = result (get_teleop_events self2))
  /\ (forall ev, In ev (pulled self1) -> pulled self2 = (pulled self1 ++ [ev])%list ->
     result (get_teleop_events self2) = result (get_teleop_events self1)).
Proof.
  destruct (get_teleop_events_spec self1) as [t1 H1].
  destruct (get_teleop_events_spec self2) as [t2 H2].
  rewrite H1, H2. unfold result. simpl fst. split.
  - intros Hperm.
    rewrite (existsb_Permutation (has_type "button_a") _ _ Hperm).
    rewrite (existsb_Permutation (has_type "button_b") _ _ Hperm).
    reflexivity.
  - intros ev Hin Hp. rewrite Hp. rewrite !existsb_app. simpl.
    rewrite !orb_false_r.
    assert (Hdup : forall f : event -> bool,
               existsb f (pulled self1) || f ev = existsb f (pulled self1)).
    { intro f. destruct (f ev) eqn:Hf.
      - rewrite (existsb_In_true f _ _ Hin Hf). reflexivity.
      - apply orb_false_r. }
    rewrite !Hdup. reflexivity.
Qed.

Ltac nodup_strings :=
  repeat (constructor; [simpl; intuition discriminate|]); constructor.

(** C2. The action features depend on the configuration only: they are
    those of a fresh adapter with the same configuration. Without
    bimanual mode they are the six keys "<motor>.pos" of the fixed
    motor list, with it the twelve keys prefixed "left_" and "right_",
    all distinct and all of type float. The feedback features are
    empty. *)
Theorem action_features_by_config (self : TelegripTeleoperator) :
  action_features self = action_features (__init__ (config self))
  /\ PyDict.keys (action_features self)
     = (if bimanual (config self)
        then List.app (map (fun motor => "left_" ++ motor ++ ".pos") _motor_names)
                      (map (fun motor => "right_" ++ motor ++ ".pos") _motor_names)
        else map (fun motor => motor ++ ".pos") _motor_names)
  /\ PyDict.keys (action_features self)
     = (if bimanual (config self)
        then (left_motor_keys ++ right_motor_keys)%list
        else motor_keys)
  /\ length (action_features self) = (if bimanual (config self) then 12 else 6)
  /\ NoDup (PyDict.keys (action_features self))
  /\ Forall (fun ty => ty = Float) (PyDict.values (action_features self))
  /\ feedback_features self = PyDict.empty
  /\ feedback_features self = feedback_features (__init__ (config self)).
Proof.
  unfold action_features, feedback_features. simpl.
  destruct (bimanual (config self)); vm_compute PyDict.keys;
    repeat split; try reflexivity;
    try nodup_strings; repeat constructor.
Qed.

(** C6. On a disconnected adapter [get_action] and [disconnect] raise
    the not-connected error; [get_teleop_events] returns a mapping on
    every adapter, and the all-false one when there is no subsystem
    object. *)
Theorem disconnected_adapter_calls (self : TelegripTeleoperator) :
  is_connected self = false ->
  get_action self
  = (Raise (mkExn DeviceNotConnectedError
              [Lit "Telegrip is not connected. You need to run `connect()` before `get_action()`."]),
     self, [])
  /\ (forall w, disconnect w self
        = (Raise (mkExn DeviceNotConnectedError [Self; Lit " is not connected."]),
           self, []))
  /\ (exists events, result (get_teleop_events self) = Return events)
  /\ (_telegrip_system self = None ->
      get_teleop_events self
      = (Return (signals false false false false false), self, [])).
Proof.
  intros Hdis. repeat split.
  - unfold get_action. run. rewrite Hdis. reflexivity.
  - intro w. unfold disconnect. run. rewrite Hdis. reflexivity.
  - destruct (get_teleop_events_spec self) as [t H]. rewrite H.
    eexists. reflexivity.
  - intros Hnone. unfold get_teleop_events, _drain_vr_events. run.
    rewrite Hnone. reflexivity.
Qed.

(* ===================================================================== *)
(** ** Polling the joint angles *)
(* ===================================================================== *)

Arguments store_angles : simpl never.
Arguments float_of : simpl never.

(** Converting and storing the angles touches neither the adapter nor
    the outside. *)
Lemma store_angles_local prefix angles : forall action self,
  exists r, store_angles prefix angles action self = (r, self, []).
Proof.
  unfold store_angles.
  induction (combine _motor_names angles) as [|p pairs IH]; intros action self.
  - eexists. reflexivity.
  - cbn [for_each]. unfold bind at 1. unfold bind at 1. unfold lift at 1.
    destruct (float_of (snd p)) as [f|e].
    + unfold ret at 1.
      destruct (IH (PyDict.set (prefix ++ fst p ++ ".pos") f action) self) as [r Hr].
      rewrite Hr. eexists. reflexivity.
    + eexists. reflexivity.
Qed.

Lemma store_angles_six prefix a1 a2 a3 a4 a5 a6 f1 f2 f3 f4 f5 f6 action self :
  float_of a1 = Return f1 -> float_of a2 = Return f2 -> float_of a3 = Return f3 ->
  float_of a4 = Return f4 -> float_of a5 = Return f5 -> float_of a6 = Return f6 ->
  store_angles prefix [a1; a2; a3; a4; a5; a6] action self
  = (Return
       (PyDict.set (prefix ++ "gripper.pos") f6
       (PyDict.set (prefix ++ "wrist_roll.pos") f5
       (PyDict.set (prefix ++ "wrist_flex.pos") f4
       (PyDict.set (prefix ++ "elbow_flex.pos") f3
       (PyDict.set (prefix ++ "shoulder_lift.pos") f2
       (PyDict.set (prefix ++ "shoulder_pan.pos") f1 action)))))),
     self, []).
Proof.
  intros H1 H2 H3 H4 H5 H6.
  unfold store_angles. cbn [combine _motor_names for_each fst snd].
  unfold bind, lift, ret. rewrite H1, H2, H3, H4, H5, H6. reflexivity.
Qed.

Section ConnectedAdapter.

Variable self : TelegripTeleoperator.
Variable sys : TelegripSystem.
Variable cl : ControlLoop.
Hypothesis connected : is_connected self = true.
Hypothesis has_system : _telegrip_system self = Some sys.
Hypothesis has_control_loop : control_loop sys = Some cl.

(** Two answers recorded for the same call: they clash or agree. *)
Ltac clash :=
  match goal with
  | H1 : ?t = _, H2 : ?t = _ |- _ =>
      rewrite H1 in H2;
      first [discriminate H2 | inversion H2; subst; reflexivity]
  end.

Ltac enter_get_action :=
  unfold get_action; run; rewrite connected; simpl;
  rewrite has_system; simpl; rewrite has_control_loop; simpl.

(** With the robot interface present and one arm, the call is the
    query of the right side followed by the conversion. *)
Lemma get_action_single ri :
  robot_interface cl = Some ri -> bimanual (config self) = false ->
  get_action self
  = match get_arm_angles ri "right" with
    | Raise e => (Raise e, self, [GetArmAngles "right"; error_logged e])
    | Return right_angles =>
        match result (store_angles "" right_angles PyDict.empty self) with
        | Return action =>
            (Return action, set_last_action (Some action) self, [GetArmAngles "right"])
        | Raise e => (Raise e, self, [GetArmAngles "right"; error_logged e])
        end
    end.
Proof.
  intros Hri Hbi. enter_get_action. rewrite Hri, Hbi.
  destruct (get_arm_angles ri "right") as [ra|e]; simpl; [|reflexivity].
  destruct (store_angles_local "" ra PyDict.empty self) as [r Hr].
  rewrite Hr. destruct r; reflexivity.
Qed.

(** With the robot interface present and two arms, the left side is
    queried and stored first, then the right side. *)
Lemma get_action_bimanual ri :
  robot_interface cl = Some ri -> bimanual (config self) = true ->
  get_action self
  = match get_arm_angles ri "left" with
    | Raise e => (Raise e, self, [GetArmAngles "left"; error_logged e])
    | Return left_angles =>
        match result (store_angles "left_" left_angles PyDict.empty self) with
        | Raise e => (Raise e, self, [GetArmAngles "left"; error_logged e])
        | Return action =>
            match get_arm_angles ri "right" with
            | Raise e =>
                (Raise e, self,
                 [GetArmAngles "left"; GetArmAngles "right"; error_logged e])
            | Return right_angles =>
                match result (store_angles "right_" right_angles action self) with
                | Return action =>
                    (Return action, set_last_action (Some action) self,
                     [GetArmAngles "left"; GetArmAngles "right"])
                | Raise e =>
                    (Raise e, self,
                     [GetArmAngles "left"; GetArmAngles "right"; error_logged e])
                end
            end
        end
    end.
Proof.
  intros Hri Hbi. enter_get_action. rewrite Hri, Hbi.
  destruct (get_arm_angles ri "left") as [la|e]; simpl; [|reflexivity].
  destruct (store_angles_local "left_" la PyDict.empty self) as [r Hr].
  rewrite Hr. destruct r as [action|e]; simpl; [|reflexivity].
  destruct (get_arm_angles ri "right") as [ra|e]; simpl; [|reflexivity].
  destruct (store_angles_local "right_" ra action self) as [r' Hr'].
  rewrite Hr'. destruct r'; reflexivity.
Qed.

(** With the control loop of the subsystem present: when it exposes no
    robot interface, [get_action] logs a warning and returns the empty
    action record. When a query of the angles raises, [get_action]
    raises that same exception; and whenever it raises, the adapter is
    left as it was and the last thing done is the error record carrying
    the exception raised. *)
Theorem get_action_no_interface_or_error :
  (robot_interface cl = None ->
     get_action self
     = (Return PyDict.empty, set_last_action (Some PyDict.empty) self,
        [interface_missing_logged]))
  /\ (forall ri side e,
        robot_interface cl = Some ri ->
        In side (sides_queried (trace (get_action self))) ->
        get_arm_angles ri side = Raise e ->
        result (get_action self) = Raise e)
  /\ (forall e,
        result (get_action self) = Raise e ->
        final (get_action self) = self
        /\ last_effect (trace (get_action self)) = Some (error_logged e)).
Proof.
  split; [|split].
  - intros Hri. enter_get_action. rewrite Hri. reflexivity.
  - intros ri side e Hri Hin Hraise.
    destruct (bimanual (config self)) eqn:Hbi.
    + rewrite (get_action_bimanual ri Hri Hbi) in *.
      destruct (get_arm_angles ri "left") as [la|el] eqn:Hl.
      * destruct (result (store_angles "left_" la PyDict.empty self)) as [a|ea].
        -- destruct (get_arm_angles ri "right") as [ra|er] eqn:Hr.
           ++ destruct (result (store_angles "right_" ra a self));
                simpl in Hin; destruct Hin as [<-|[<-|[]]]; clash.
           ++ simpl in Hin; destruct Hin as [<-|[<-|[]]]; clash.
        -- simpl in Hin; destruct Hin as [<-|[]]; clash.
      * simpl in Hin; destruct Hin as [<-|[]]; clash.
    + rewrite (get_action_single ri Hri Hbi) in *.
      destruct (get_arm_angles ri "right") as [ra|er] eqn:Hr.
      * destruct (result (store_angles "" ra PyDict.empty self));
          simpl in Hin; destruct Hin as [<-|[]]; clash.
      * simpl in Hin; destruct Hin as [<-|[]]; clash.
  - intros e.
    destruct (robot_interface cl) as [ri|] eqn:Hri.
    + destruct (bimanual (config self)) eqn:Hbi.
      * rewrite (get_action_bimanual ri Hri Hbi).
        destruct (get_arm_angles ri "left") as [la|el].
        -- destruct (result (store_angles "left_" la PyDict.empty self)) as [a|ea].
           ++ destruct (get_arm_angles ri "right") as [ra|er].
              ** destruct (result (store_angles "right_" ra a self));
                   simpl; intros He; inversion He; subst; split; reflexivity.
              ** simpl; intros He; inversion He; subst; split; reflexivity.
           ++ simpl; intros He; inversion He; subst; split; reflexivity.
        -- simpl; intros He; inversion He; subst; split; reflexivity.
      * rewrite (get_action_single ri Hri Hbi).
        destruct (get_arm_angles ri "right") as [ra|er].
        -- destruct (result (store_angles "" ra PyDict.empty self));
             simpl; intros He; inversion He; subst; split; reflexivity.
        -- simpl; intros He; inversion He; subst; split; reflexivity.
    + enter_get_action. rewrite Hri. simpl. discriminate.
Qed.

Variable ri : RobotInterface.
Hypothesis has_interface : robot_interface cl = Some ri.

(** C7. In bimanual mode, with the robot interface reporting the left
    angles 1 to 6 and the right angles 7 to 12, [get_action] returns
    the twelve keys "left_<motor>.pos" and "right_<motor>.pos", in the
    order of the motor list, holding the floats 1.0 to 12.0. *)
Theorem get_action_bimanual_example (left_angles right_angles : list pynum) :
  bimanual (config self) = true ->
  get_arm_angles ri "left" = Return left_angles ->
  get_arm_angles ri "right" = Return right_angles ->
  Forall2 reads_as left_angles [1; 2; 3; 4; 5; 6]%Z ->
  Forall2 reads_as right_angles [7; 8; 9; 10; 11; 12]%Z ->
  result (get_action self) = Return action_1_to_12
  /\ PyDict.keys action_1_to_12 = (left_motor_keys ++ right_motor_keys)%list
  /\ map integer_value (PyDict.values action_1_to_12)
     = map Some [1; 2; 3; 4; 5; 6; 7; 8; 9; 10; 11; 12]%Z.
Proof.
  intros Hbi Hl Hr Fl Fr.
  repeat match goal with
         | H : Forall2 _ _ _ |- _ => inversion H; subst; clear H
         end.
  unfold reads_as in *.
  repeat match goal with
         | H : float_of _ = float_of (PyInt ?z) |- _ =>
             let v := eval vm_compute in (float_of (PyInt z)) in
             change (float_of (PyInt z)) with v in H
         end.
  rewrite (get_action_bimanual ri has_interface Hbi), Hl, Hr.
  erewrite store_angles_six by eassumption. simpl result.
  erewrite store_angles_six by eassumption. simpl result.
  repeat split.
Qed.

(** C10. In single-arm mode, with the robot interface present,
    [get_action] asks for the angles of the right side and of no other
    side, its result is determined by the answer for that side alone,
    and six angles are stored, converted to floats, under the six
    unprefixed keys "<motor>.pos" in the order of the motor list. *)
Theorem get_action_single_arm_reads_right :
  bimanual (config self) = false ->
  sides_queried (trace (get_action self)) = ["right"]
  /\ result (get_action self)
     = match get_arm_angles ri "right" with
       | Raise e => Raise e
       | Return right_angles =>
           result (store_angles "" right_angles PyDict.empty self)
       end
  /\ (forall a1 a2 a3 a4 a5 a6 f1 f2 f3 f4 f5 f6,
        get_arm_angles ri "right" = Return [a1; a2; a3; a4; a5; a6] ->
        float_of a1 = Return f1 -> float_of a2 = Return f2 ->
        float_of a3 = Return f3 -> float_of a4 = Return f4 ->
        float_of a5 = Return f5 -> float_of a6 = Return f6 ->
        result (get_action self)
        = Return [ ("shoulder_pan.pos", f1); ("shoulder_lift.pos", f2);
                   ("elbow_flex.pos", f3); ("wrist_flex.pos", f4);
                   ("wrist_roll.pos", f5); ("gripper.pos", f6) ]).
Proof.
  intros Hbi. rewrite (get_action_single ri has_interface Hbi).
  split; [|split].
  - destruct (get_arm_angles ri "right") as [ra|e]; [|reflexivity].
    destruct (result (store_angles "" ra PyDict.empty self)); reflexivity.
  - destruct (get_arm_angles ri "right") as [ra|e]; [|reflexivity].
    destruct (result (store_angles "" ra PyDict.empty self)); reflexivity.
  - intros a1 a2 a3 a4 a5 a6 f1 f2 f3 f4 f5 f6 Hr H1 H2 H3 H4 H5 H6.
    rewrite Hr.
    rewrite (store_angles_six "" _ _ _ _ _ _ _ _ _ _ _ _ PyDict.empty self
               H1 H2 H3 H4 H5 H6).
    reflexivity.
Qed.

End ConnectedAdapter.

(* ===================================================================== *)
(** ** Connecting and disconnecting *)
(* ===================================================================== *)

Lemma flag_off_not_connected self :
  _is_connected self = false -> is_connected self = false.
Proof.
  unfold is_connected. intros H. rewrite H.
  destruct (_telegrip_system self); [apply andb_false_r|reflexivity].
Qed.

(** C8. On a connected adapter [connect] raises the already-connected
    error before doing anything: the adapter is unchanged and nothing
    is created, started or logged. *)
Theorem connect_when_connected (w : ConnectWorld) (calibrate : bool)
    (self : TelegripTeleoperator) :
  is_connected self = true ->
  connect w calibrate self
  = (Raise (mkExn DeviceAlreadyConnectedError [Self; Lit " already connected"]),
     self, []).
Proof.
  intros Hconn. unfold connect. run. rewrite Hconn. reflexivity.
Qed.

Lemma connected_has_system self :
  is_connected self = true -> exists sys, _telegrip_system self = Some sys.
Proof.
  unfold is_connected. destruct (_telegrip_system self) as [sys|].
  - intros _. exists sys. reflexivity.
  - discriminate.
Qed.

Ltac outcomes :=
  repeat match goal with
         | |- context [match ?x with Return _ => _ | Raise _ => _ end] =>
             destruct x as [[]|?] eqn:?; simpl
         | |- context [match ?x with Some _ => _ | None => _ end] =>
             destruct x eqn:?; simpl
         | |- context [match ?x with
                       | StopCompleted => _ | StopRaised _ => _ | StopTimedOut => _
                       end] =>
             destruct x eqn:?; simpl
         end.

(** C3, as the code has it. When [disconnect] returns on a connected
    adapter, [is_connected] is false. If the adapter held an event
    loop, its references to the subsystem, the loop and the thread are
    all cleared, whatever awaiting [stop()] ended in; if it held none,
    only the connection flag is reset. [disconnect] does return
    whenever the calls into asyncio and threading do not raise,
    whether [stop()] completes, raises or times out. *)
Theorem disconnect_reaches_disconnected (w : DisconnectWorld)
    (self : TelegripTeleoperator) :
  is_connected self = true ->
  (forall self' t,
     disconnect w self = (Return tt, self', t) ->
     is_connected self' = false
     /\ (_loop self <> None ->
         _telegrip_system self' = None
         /\ _loop self' = None
         /\ _telegrip_thread self' = None)
     /\ (_loop self = None -> self' = set_is_connected false self))
  /\ (run_coroutine_threadsafe w = Return tt ->
      call_soon_threadsafe w = Return tt ->
      Thread_join w = Return tt ->
      exists self' t, disconnect w self = (Return tt, self', t)).
Proof.
  intros Hconn. destruct (connected_has_system self Hconn) as [sys Hsys].
  unfold disconnect. run. rewrite Hconn. simpl. rewrite Hsys. simpl.
  split.
  - intros self' t.
    destruct (_loop self) as [lp|] eqn:Hloop; simpl.
    + unfold fut_result. outcomes; intros Heq; inversion Heq; subst; clear Heq;
        (split; [apply flag_off_not_connected; reflexivity|]);
        (split; [intros _; repeat split | intros Hno; discriminate Hno]).
    + intros Heq; inversion Heq; subst; clear Heq.
      split; [apply flag_off_not_connected; reflexivity|].
      split; [intros Hyes; contradiction Hyes; reflexivity | intros _; reflexivity].
  - intros Hrun Hsoon Hjoin. rewrite Hrun, Hsoon, Hjoin.
    destruct (_loop self) as [lp|]; simpl; [|eexists; eexists; reflexivity].
    unfold fut_result. outcomes; eexists; eexists; reflexivity.
Qed.

(** C4, as the code has it. [connect] on a disconnected adapter raises
    exactly when a step of its setup raises (importing telegrip,
    building the subsystem configuration, constructing the subsystem,
    launching the thread, engaging the motors), and then it raises that
    same exception, after logging it, with [is_connected] false. A
    failure before the thread object exists leaves the adapter's thread
    and subsystem references as they were before the call; a failure of
    the launch or of the engage call leaves the thread handle just
    created stored in the adapter. *)
Theorem connect_failure (w : ConnectWorld) (calibrate : bool)
    (self : TelegripTeleoperator) :
  is_connected self = false ->
  match first_failure w (config self) with
  | Some (st, e) =>
      result (connect w calibrate self) = Raise e
      /\ is_connected (final (connect w calibrate self)) = false
      /\ last_effect (trace (connect w calibrate self))
         = Some (connect_failure_logged e)
      /\ match st with
         | Importing | Configuring | Constructing =>
             _telegrip_thread (final (connect w calibrate self))
             = _telegrip_thread self
             /\ _telegrip_system (final (connect w calibrate self))
                = _telegrip_system self
         | Launching | Engaging =>
             _telegrip_thread (final (connect w calibrate self))
             = Some (new_Thread w)
         end
  | None =>
      result (connect w calibrate self) = Return tt
      /\ _is_connected (final (connect w calibrate self)) = true
  end.
Proof.
  intros Hdis. unfold first_failure, connect. run. rewrite Hdis. simpl.
  destruct (import_telegrip w) as [[]|e1]; simpl.
  2:{ repeat split. apply flag_off_not_connected. reflexivity. }
  destruct (new_TelegripSystemConfig w (telegrip_config_of (config self)))
    as [[]|e2]; simpl.
  2:{ repeat split. apply flag_off_not_connected. reflexivity. }
  destruct (new_TelegripSystem w (telegrip_config_of (config self)))
    as [sys|e3]; simpl.
  2:{ repeat split. apply flag_off_not_connected. reflexivity. }
  destruct (Thread_start w) as [[]|e4]; simpl.
  2:{ repeat split. apply flag_off_not_connected. reflexivity. }
  unfold in_background, run_telegrip_in_thread. run.
  destruct (new_event_loop w) as [[l|en]|]; simpl;
    try destruct (start sys) as [[]|es]; simpl;
    destruct (autoconnect (config self) && enable_robot (config self)); simpl;
    try (repeat split; fail);
    destruct (control_loop sys) as [cl|]; simpl; try (repeat split; fail);
    destruct (robot_interface cl) as [ri|]; simpl; try (repeat split; fail);
    destruct (engage ri) as [[]|ee]; simpl; repeat split;
    try (apply flag_off_not_connected; reflexivity);
    unfold last_effect; rewrite ?rev_app_distr; reflexivity.
Qed.

(* ===================================================================== *)
(** ** Boundary cases of connect and disconnect *)
(* ===================================================================== *)

(** [self._loop] is assigned by the background thread, and [connect]
    waits for it by sleeping only. Here [connect] returned before the
    thread had stored its loop, and the subsystem reports itself
    running: the adapter is connected, [disconnect] returns and resets
    the flag, but the guard [if self._telegrip_system and self._loop]
    skips the branch that clears the references, so the subsystem and
    the thread stay referenced. *)
Lemma disconnect_without_loop_keeps_references :
  result (connect (world_with (running_system None []) None) true
            (__init__ TelegripConfig_default)) = Return tt
  /\ is_connected connected_before_loop = true
  /\ _loop connected_before_loop = None
  /\ result (disconnect asyncio_ok connected_before_loop) = Return tt
  /\ is_connected (final (disconnect asyncio_ok connected_before_loop)) = false
  /\ _telegrip_system (final (disconnect asyncio_ok connected_before_loop))
     = Some (running_system None [])
  /\ _telegrip_thread (final (disconnect asyncio_ok connected_before_loop))
     = Some thread1
  /\ ~ (_telegrip_system (final (disconnect asyncio_ok connected_before_loop)) = None
        /\ _loop (final (disconnect asyncio_ok connected_before_loop)) = None
        /\ _telegrip_thread (final (disconnect asyncio_ok connected_before_loop)) = None).
Proof.
  repeat split; try reflexivity.
  intros [Hsys _]. vm_compute in Hsys. discriminate Hsys.
Qed.

(** With auto-connect on and a robot whose serial link is down, the
    engage call raises after the thread was started: [connect] raises
    that error with [is_connected] false, and the adapter still holds
    the thread it spawned, the loop of that thread and the subsystem. *)
Lemma connect_engage_failure_keeps_thread :
  result (connect (world_with (running_system (Some arms_unplugged) [])
                     (Some (Return loop1)))
            true (__init__ (TelegripConfig_with false true)))
  = Raise serial_error
  /\ is_connected
       (final (connect (world_with (running_system (Some arms_unplugged) [])
                          (Some (Return loop1)))
                 true (__init__ (TelegripConfig_with false true))))
     = false
  /\ _telegrip_thread
       (final (connect (world_with (running_system (Some arms_unplugged) [])
                          (Some (Return loop1)))
                 true (__init__ (TelegripConfig_with false true))))
     = Some thread1
  /\ _loop
       (final (connect (world_with (running_system (Some arms_unplugged) [])
                          (Some (Return loop1)))
                 true (__init__ (TelegripConfig_with false true))))
     = Some loop1
  /\ _telegrip_thread
       (final (connect (world_with (running_system (Some arms_unplugged) [])
                          (Some (Return loop1)))
                 true (__init__ (TelegripConfig_with false true))))
     <> None.
Proof.
  repeat split; try reflexivity. vm_compute. discriminate.
Qed.

(** A failure of [start()] stays inside the background thread: it is
    logged there, the loop is closed, and [connect] returns with the
    connection flag set. *)
Lemma start_failure_stays_in_thread :
  let sys := {| is_running := false;
                control_loop := None;
                get_vr_events := None;
                start := Raise serial_error;
                stop := StopCompleted |} in
  let r := connect (world_with sys (Some (Return loop1))) true
             (__init__ TelegripConfig_default) in
  result r = Return tt
  /\ _is_connected (final r) = true
  /\ In (Log ERROR [Lit "Error in telegrip thread: "] (Some serial_error)) (trace r)
  /\ In (LoopClose loop1) (trace r).
Proof.
  vm_compute. repeat split; auto 20.
Qed.

(* ===================================================================== *)
(** ** Instances *)
(* ===================================================================== *)

Lemma get_teleop_events_folds_witness :
  result (get_teleop_events
            (connected_to TelegripConfig_default
               (running_system None [button_a_event])))
  = Return (signals true false false false true)
  /\ result (get_teleop_events
               (connected_to TelegripConfig_default
                  (running_system None [button_b_event])))
     = Return (signals false false true false true)
  /\ result (get_teleop_events
               (connected_to TelegripConfig_default
                  (running_system None [unknown_event])))
     = Return (signals false false false false false)
  /\ result (get_teleop_events
               (connected_to TelegripConfig_default
                  (running_system None
                     [button_b_event; unknown_event; button_a_event])))
     = Return (signals true false true false true).
Proof.
  split; [|split; [|split]].
  - apply (proj1 (get_teleop_events_folds _) button_a_event); reflexivity.
  - apply (proj1 (proj2 (get_teleop_events_folds _)) button_b_event); reflexivity.
  - apply (proj1 (proj2 (proj2 (get_teleop_events_folds _))) unknown_event);
      reflexivity.
  - apply (proj2 (proj2 (proj2 (get_teleop_events_folds _)))
             button_a_event button_b_event).
    + vm_compute. auto.
    + vm_compute. auto.
    + reflexivity.
    + reflexivity.
Defined.

Lemma get_teleop_events_order_independent_witness :
  result (get_teleop_events
            (connected_to TelegripConfig_default
               (running_system None [button_a_event; button_b_event; unknown_event])))
  = result (get_teleop_events
              (connected_to TelegripConfig_default
                 (running_system None [button_b_event; unknown_event; button_a_event])))
  /\ result (get_teleop_events
               (connected_to TelegripConfig_default
                  (running_system None [button_a_event; button_b_event; button_a_event])))
     = result (get_teleop_events
                 (connected_to TelegripConfig_default
                    (running_system None [button_a_event; button_b_event]))).
Proof.
  split.
  - apply (proj1 (get_teleop_events_order_independent _ _)).
    exact (Permutation_cons_append [button_b_event; unknown_event] button_a_event).
  - apply (proj2 (get_teleop_events_order_independent _ _) button_a_event).
    + left. reflexivity.
    + reflexivity.
Defined.

Lemma disconnected_adapter_calls_witness :
  result (get_action (__init__ TelegripConfig_default))
  = Raise (mkExn DeviceNotConnectedError
             [Lit "Telegrip is not connected. You need to run `connect()` before `get_action()`."])
  /\ result (disconnect asyncio_ok (__init__ TelegripConfig_default))
     = Raise (mkExn DeviceNotConnectedError [Self; Lit " is not connected."])
  /\ result (get_teleop_events (__init__ TelegripConfig_default))
     = Return (signals false false false false false).
Proof.
  pose proof (disconnected_adapter_calls (__init__ TelegripConfig_default) eq_refl)
    as [Ha [Hd [_ He]]].
  split; [|split].
  - rewrite Ha. reflexivity.
  - rewrite (Hd asyncio_ok). reflexivity.
  - rewrite (He eq_refl). reflexivity.
Defined.

Lemma get_action_no_interface_or_error_witness :
  result (get_action (connected_to TelegripConfig_default (running_system None [])))
  = Return PyDict.empty
  /\ result (get_action
               (connected_to TelegripConfig_default
                  (running_system (Some arms_unplugged) [])))
     = Raise serial_error.
Proof.
  split.
  - rewrite (proj1 (get_action_no_interface_or_error
                      (connected_to TelegripConfig_default (running_system None []))
                      (running_system None []) {| robot_interface := None |}
                      eq_refl eq_refl eq_refl) eq_refl).
    reflexivity.
  - apply (proj1 (proj2 (get_action_no_interface_or_error
                           (connected_to TelegripConfig_default
                              (running_system (Some arms_unplugged) []))
                           (running_system (Some arms_unplugged) [])
                           {| robot_interface := Some arms_unplugged |}
                           eq_refl eq_refl eq_refl))
             arms_unplugged "right" serial_error eq_refl).
    + vm_compute. auto.
    + reflexivity.
Defined.

Lemma get_action_bimanual_example_witness :
  result (get_action
            (connected_to (TelegripConfig_with true false)
               (running_system (Some arms_1_to_12) [])))
  = Return action_1_to_12.
Proof.
  apply (get_action_bimanual_example
           (connected_to (TelegripConfig_with true false)
              (running_system (Some arms_1_to_12) []))
           (running_system (Some arms_1_to_12) [])
           {| robot_interface := Some arms_1_to_12 |}
           eq_refl eq_refl eq_refl arms_1_to_12 eq_refl
           (map PyInt [1; 2; 3; 4; 5; 6]%Z) (map PyInt [7; 8; 9; 10; 11; 12]%Z)
           eq_refl eq_refl eq_refl).
  - repeat constructor.
  - repeat constructor.
Defined.

Lemma get_action_single_arm_reads_right_witness :
  sides_queried
    (trace (get_action
              (connected_to TelegripConfig_default
                 (running_system (Some arms_1_to_12) []))))
  = ["right"]
  /\ PyDict.keys
       (match result (get_action
                        (connected_to TelegripConfig_default
                           (running_system (Some arms_1_to_12) []))) with
        | Return action => action
        | Raise _ => PyDict.empty
        end)
     = motor_keys.
Proof.
  pose proof (get_action_single_arm_reads_right
                (connected_to TelegripConfig_default
                   (running_system (Some arms_1_to_12) []))
                (running_system (Some arms_1_to_12) [])
                {| robot_interface := Some arms_1_to_12 |}
                eq_refl eq_refl eq_refl arms_1_to_12 eq_refl eq_refl)
    as [Hsides [_ Hsix]].
  split.
  - exact Hsides.
  - rewrite (Hsix (PyInt 7) (PyInt 8) (PyInt 9) (PyInt 10) (PyInt 11) (PyInt 12)
               _ _ _ _ _ _ eq_refl eq_refl eq_refl eq_refl eq_refl eq_refl eq_refl).
    reflexivity.
Defined.

Lemma connect_when_connected_witness :
  result (connect (world_with (running_system None []) (Some (Return loop1))) true
            (connected_to TelegripConfig_default (running_system None [])))
  = Raise (mkExn DeviceAlreadyConnectedError [Self; Lit " already connected"])
  /\ final (connect (world_with (running_system None []) (Some (Return loop1))) true
              (connected_to TelegripConfig_default (running_system None [])))
     = connected_to TelegripConfig_default (running_system None []).
Proof.
  rewrite (connect_when_connected
             (world_with (running_system None []) (Some (Return loop1))) true
             (connected_to TelegripConfig_default (running_system None []))
             eq_refl).
  split; reflexivity.
Defined.

Lemma disconnect_reaches_disconnected_witness :
  is_connected
    (final (disconnect asyncio_ok
              (connected_to TelegripConfig_default (running_system None []))))
  = false
  /\ _telegrip_system
       (final (disconnect asyncio_ok
                 (connected_to TelegripConfig_default (running_system None []))))
     = None
  /\ _loop
       (final (disconnect asyncio_ok
                 (connected_to TelegripConfig_default (running_system None []))))
     = None
  /\ _telegrip_thread
       (final (disconnect asyncio_ok
                 (connected_to TelegripConfig_default (running_system None []))))
     = None.
Proof.
  destruct (proj1 (disconnect_reaches_disconnected asyncio_ok
                     (connected_to TelegripConfig_default (running_system None []))
                     eq_refl)
              (final (disconnect asyncio_ok
                        (connected_to TelegripConfig_default (running_system None []))))
              (trace (disconnect asyncio_ok
                        (connected_to TelegripConfig_default (running_system None []))))
              eq_refl)
    as [Hoff [Hcleared _]].
  split; [exact Hoff|].
  apply Hcleared. vm_compute. discriminate.
Defined.

Lemma connect_failure_witness :
  result (connect (world_with (running_system (Some arms_unplugged) [])
                     (Some (Return loop1)))
            true (__init__ (TelegripConfig_with false true)))
  = Raise serial_error
  /\ is_connected
       (final (connect (world_with (running_system (Some arms_unplugged) [])
                          (Some (Return loop1)))
                 true (__init__ (TelegripConfig_with false true))))
     = false.
Proof.
  pose proof (connect_failure
                (world_with (running_system (Some arms_unplugged) [])
                   (Some (Return loop1)))
                true (__init__ (TelegripConfig_with false true)) eq_refl)
    as H.
  change (first_failure
            (world_with (running_system (Some arms_unplugged) [])
               (Some (Return loop1)))
            (config (__init__ (TelegripConfig_with false true))))
    with (Some (Engaging, serial_error)) in H.
  destruct H as [Hraise [Hoff _]].
  split; assumption.
Defined.

(* ===================================================================== *)
(** ** Further properties of get_action *)
(* ===================================================================== *)

(** The four ways a call to [get_action] can go before any angle is
    queried. *)
Lemma get_action_cases self :
  (is_connected self = false
   /\ get_action self = (Raise not_connected_get_action, self, []))
  \/ (exists sys,
        is_connected self = true /\ _telegrip_system self = Some sys
        /\ control_loop sys = None
        /\ get_action self
           = (Raise (none_has_no_attribute "robot_interface"), self,
              [error_logged (none_has_no_attribute "robot_interface")]))
  \/ (exists sys cl,
        is_connected self = true /\ _telegrip_system self = Some sys
        /\ control_loop sys = Some cl /\ robot_interface cl = None
        /\ get_action self
           = (Return PyDict.empty, set_last_action (Some PyDict.empty) self,
              [interface_missing_logged]))
  \/ (exists sys cl ri,
        is_connected self = true /\ _telegrip_system self = Some sys
        /\ control_loop sys = Some cl /\ robot_interface cl = Some ri).
Proof.
  destruct (is_connected self) eqn:Hc.
  - destruct (connected_has_system self Hc) as [sys Hs].
    destruct (control_loop sys) as [cl|] eqn:Hcl.
    + destruct (robot_interface cl) as [ri|] eqn:Hri.
      * right. right. right. exists sys, cl, ri. repeat split; assumption.
      * right. right. left. exists sys, cl. repeat split; try assumption.
        unfold get_action. run. rewrite Hc. simpl. rewrite Hs. simpl.
        rewrite Hcl. simpl. rewrite Hri. reflexivity.
    + right. left. exists sys. repeat split; try assumption.
      unfold get_action. run. rewrite Hc. simpl. rewrite Hs. simpl.
      rewrite Hcl. reflexivity.
  - left. split; [reflexivity|].
    unfold get_action. run. rewrite Hc. reflexivity.
Qed.

Lemma is_connected_set_last_action v self :
  is_connected (set_last_action v self) = is_connected self.
Proof. reflexivity. Qed.

(** X1. [get_action] writes nothing but the cache of the last action:
    when it returns, the adapter differs from before only in
    [_last_action], which holds the returned record; when it raises,
    the adapter is as before. The connection status is the same after
    the call as before it. *)
Theorem get_action_only_caches (self : TelegripTeleoperator) :
  final (get_action self)
  = match result (get_action self) with
    | Return action => set_last_action (Some action) self
    | Raise _ => self
    end
  /\ is_connected (final (get_action self)) = is_connected self.
Proof.
  assert (H : final (get_action self)
              = match result (get_action self) with
                | Return action => set_last_action (Some action) self
                | Raise _ => self
                end).
  { destruct (get_action_cases self)
      as [[_ H]|[(sys & _ & _ & _ & H)|[(sys & cl & _ & _ & _ & _ & H)
         |(sys & cl & ri & Hc & Hs & Hcl & Hri)]]];
      try (rewrite H; reflexivity).
    destruct (bimanual (config self)) eqn:Hbi.
    - rewrite (get_action_bimanual self sys cl Hc Hs Hcl ri Hri Hbi).
      destruct (get_arm_angles ri "left") as [la|e]; [|reflexivity].
      destruct (result (store_angles "left_" la PyDict.empty self)) as [a|e];
        [|reflexivity].
      destruct (get_arm_angles ri "right") as [ra|e]; [|reflexivity].
      destruct (result (store_angles "right_" ra a self)); reflexivity.
    - rewrite (get_action_single self sys cl Hc Hs Hcl ri Hri Hbi).
      destruct (get_arm_angles ri "right") as [ra|e]; [|reflexivity].
      destruct (result (store_angles "" ra PyDict.empty self)); reflexivity. }
  split; [exact H|]. rewrite H.
  destruct (result (get_action self)); reflexivity.
Qed.

(** X2. In bimanual mode the left arm is queried first, and the right
    arm is queried only when the left angles were obtained and
    converted: a failure on the left side ends the call with the right
    arm untouched. *)
Theorem get_action_bimanual_left_first
    (self : TelegripTeleoperator) (sys : TelegripSystem) (cl : ControlLoop)
    (ri : RobotInterface) :
  is_connected self = true ->
  _telegrip_system self = Some sys ->
  control_loop sys = Some cl ->
  robot_interface cl = Some ri ->
  bimanual (config self) = true ->
  (sides_queried (trace (get_action self)) = ["left"; "right"]
   \/ sides_queried (trace (get_action self)) = ["left"])
  /\ (forall e, get_arm_angles ri "left" = Raise e ->
        sides_queried (trace (get_action self)) = ["left"]
        /\ result (get_action self) = Raise e)
  /\ (forall left_angles e,
        get_arm_angles ri "left" = Return left_angles ->
        result (store_angles "left_" left_angles PyDict.empty self) = Raise e ->
        sides_queried (trace (get_action self)) = ["left"]
        /\ result (get_action self) = Raise e).
Proof.
  intros Hc Hs Hcl Hri Hbi.
  rewrite (get_action_bimanual self sys cl Hc Hs Hcl ri Hri Hbi).
  split; [|split].
  - destruct (get_arm_angles ri "left") as [la|e]; [|right; reflexivity].
    destruct (result (store_angles "left_" la PyDict.empty self)) as [a|e];
      [|right; reflexivity].
    destruct (get_arm_angles ri "right") as [ra|e]; [|left; reflexivity].
    destruct (result (store_angles "right_" ra a self)); left; reflexivity.
  - intros e He. rewrite He. split; reflexivity.
  - intros la e Hla Hstore. rewrite Hla, Hstore. split; reflexivity.
Qed.

Lemma keys_set_absent {V} k (v : V) (d : dict V) :
  ~ In k (PyDict.keys d) ->
  PyDict.keys (PyDict.set k v d) = (PyDict.keys d ++ [k])%list.
Proof.
  induction d as [|[k' v'] d IH]; simpl; intros Hnot.
  - reflexivity.
  - destruct (String.eqb k k') eqn:E.
    + apply String.eqb_eq in E. subst. exfalso. apply Hnot. left. reflexivity.
    + simpl. f_equal. apply IH. intros Hin. apply Hnot. right. exact Hin.
Qed.

Lemma In_firstn {A} n (l : list A) x : In x (firstn n l) -> In x l.
Proof.
  intros Hin. rewrite <- (firstn_skipn n l). apply in_or_app. left. exact Hin.
Qed.

Lemma NoDup_firstn {A} n (l : list A) : NoDup l -> NoDup (firstn n l).
Proof.
  intros Hnd. rewrite <- (firstn_skipn n l) in Hnd.
  exact (NoDup_app_remove_r _ _ Hnd).
Qed.

(** Storing the angles appends, in the order of the names, one key per
    angle for as many names as there are angles, provided none of these
    keys is in the record yet. *)
Lemma for_each_store_keys prefix : forall names angles action self action',
  NoDup (map (fun m => prefix ++ m ++ ".pos") names) ->
  (forall m, In m names -> ~ In (prefix ++ m ++ ".pos") (PyDict.keys action)) ->
  result (for_each (combine names angles)
            (fun action p =>
               f <- lift (float_of (snd p)) ;;
               ret (PyDict.set (prefix ++ fst p ++ ".pos") f action))
            action self) = Return action' ->
  PyDict.keys action'
  = List.app (PyDict.keys action)
      (map (fun m => prefix ++ m ++ ".pos") (firstn (length angles) names)).
Proof.
  induction names as [|m names IH]; intros angles action self action' Hnd Hfresh Hres.
  - simpl in Hres. unfold ret, result in Hres. simpl in Hres.
    inversion Hres; subst. rewrite firstn_nil. simpl. symmetry. apply app_nil_r.
  - destruct angles as [|x angles].
    + simpl in Hres. unfold ret, result in Hres. simpl in Hres.
      inversion Hres; subst. simpl. symmetry. apply app_nil_r.
    + cbn [combine for_each fst snd length firstn map] in *.
      unfold bind at 1 in Hres. unfold bind at 1 in Hres. unfold lift at 1 in Hres.
      destruct (float_of x) as [f|e]; [|discriminate Hres].
      unfold ret at 1 in Hres.
      inversion Hnd as [|? ? Hm Hnd']; subst.
      match type of Hres with
      | context [for_each ?l ?b ?a ?s] =>
          destruct (for_each l b a s) as [[r s2] t2] eqn:Hrest
      end.
      unfold result in Hres. simpl in Hres. subst r.
      assert (Hkeys : PyDict.keys (PyDict.set (prefix ++ m ++ ".pos") f action)
                      = List.app (PyDict.keys action) [prefix ++ m ++ ".pos"]).
      { apply keys_set_absent. apply Hfresh. left. reflexivity. }
      rewrite (IH angles (PyDict.set (prefix ++ m ++ ".pos") f action)
                 self action' Hnd').
      * rewrite Hkeys, <- app_assoc. reflexivity.
      * intros m' Hin' Hin. rewrite Hkeys in Hin.
        apply in_app_or in Hin. destruct Hin as [Hin|[Heq|[]]].
        -- exact (Hfresh m' (or_intror Hin') Hin).
        -- apply Hm. rewrite Heq.
           exact (in_map (fun m => prefix ++ m ++ ".pos") names m' Hin').
      * rewrite Hrest. reflexivity.
Qed.

Lemma store_angles_keys_plain angles self action' :
  result (store_angles "" angles PyDict.empty self) = Return action' ->
  PyDict.keys action' = firstn (length angles) motor_keys.
Proof.
  intros Hres. unfold store_angles in Hres.
  rewrite (for_each_store_keys "" _motor_names angles PyDict.empty self action');
    [ | vm_compute; nodup_strings | intros ? ? [] | exact Hres ].
  simpl PyDict.keys. simpl app. rewrite <- firstn_map. reflexivity.
Qed.

Lemma store_angles_keys_left angles self action' :
  result (store_angles "left_" angles PyDict.empty self) = Return action' ->
  PyDict.keys action' = firstn (length angles) left_motor_keys.
Proof.
  intros Hres. unfold store_angles in Hres.
  rewrite (for_each_store_keys "left_" _motor_names angles PyDict.empty self action');
    [ | vm_compute; nodup_strings | intros ? ? [] | exact Hres ].
  simpl PyDict.keys. simpl app. rewrite <- firstn_map. reflexivity.
Qed.

Lemma right_keys_not_left m n :
  In m _motor_names -> ~ In ("right_" ++ m ++ ".pos") (firstn n left_motor_keys).
Proof.
  intros Hm Hin. apply In_firstn in Hin.
  simpl in Hm, Hin.
  repeat match goal with
         | H : _ \/ _ |- _ => destruct H
         | H : False |- _ => destruct H
         end; subst; discriminate.
Qed.

Lemma store_angles_keys_right angles n action self action' :
  PyDict.keys action = firstn n left_motor_keys ->
  result (store_angles "right_" angles action self) = Return action' ->
  PyDict.keys action'
  = (firstn n left_motor_keys ++ firstn (length angles) right_motor_keys)%list.
Proof.
  intros Hleft Hres. unfold store_angles in Hres.
  rewrite (for_each_store_keys "right_" _motor_names angles action self action');
    [ | vm_compute; nodup_strings
      | intros m Hm; rewrite Hleft; apply right_keys_not_left; exact Hm
      | exact Hres ].
  rewrite Hleft, <- firstn_map. reflexivity.
Qed.

Lemma length_firstn_le {A} n (l : list A) : length (firstn n l) <= length l.
Proof.
  rewrite <- (firstn_skipn n l) at 2. rewrite length_app. lia.
Qed.

(** The keys of a record [get_action] returns: a prefix of the motor
    keys with one arm, a prefix of the left keys followed by a prefix of
    the right keys with two. *)
Lemma get_action_keys_shape self action :
  result (get_action self) = Return action ->
  exists n m,
    PyDict.keys action
    = if bimanual (config self)
      then (firstn n left_motor_keys ++ firstn m right_motor_keys)%list
      else firstn n motor_keys.
Proof.
  intros Hres.
  destruct (get_action_cases self)
    as [[_ H]|[(sys & _ & _ & _ & H)|[(sys & cl & _ & _ & _ & _ & H)
       |(sys & cl & ri & Hc & Hs & Hcl & Hri)]]].
  - rewrite H in Hres. discriminate Hres.
  - rewrite H in Hres. discriminate Hres.
  - rewrite H in Hres. inversion Hres; subst. exists 0, 0.
    destruct (bimanual (config self)); reflexivity.
  - destruct (bimanual (config self)) eqn:Hbi.
    + rewrite (get_action_bimanual self sys cl Hc Hs Hcl ri Hri Hbi) in Hres.
      destruct (get_arm_angles ri "left") as [la|e]; [|discriminate Hres].
      destruct (result (store_angles "left_" la PyDict.empty self)) as [a|e] eqn:Hl;
        [|discriminate Hres].
      destruct (get_arm_angles ri "right") as [ra|e]; [|discriminate Hres].
      destruct (result (store_angles "right_" ra a self)) as [a'|e] eqn:Hr;
        [|discriminate Hres].
      inversion Hres; subst.
      exists (length la), (length ra).
      apply store_angles_keys_right with (action := a) (self := self);
        [apply store_angles_keys_left with (self := self); exact Hl | exact Hr].
    + rewrite (get_action_single self sys cl Hc Hs Hcl ri Hri Hbi) in Hres.
      destruct (get_arm_angles ri "right") as [ra|e]; [|discriminate Hres].
      destruct (result (store_angles "" ra PyDict.empty self)) as [a|e] eqn:Hr;
        [|discriminate Hres].
      inversion Hres; subst.
      exists (length ra), 0.
      apply store_angles_keys_plain with (self := self). exact Hr.
Qed.

(** X3. Whatever [get_action] returns stays within the declared
    features: every key of the record is a key of [action_features],
    no key occurs twice, and the record has at most as many entries
    as there are features. *)
Theorem get_action_within_features (self : TelegripTeleoperator)
    (action : dict spec_float) :
  result (get_action self) = Return action ->
  incl (PyDict.keys action) (PyDict.keys (action_features self))
  /\ NoDup (PyDict.keys action)
  /\ length action <= length (action_features self).
Proof.
  intros Hres. destruct (get_action_keys_shape self action Hres) as (n & m & Hk).
  assert (Hlen : length action = length (PyDict.keys action))
    by (unfold PyDict.keys; symmetry; apply length_map).
  rewrite Hlen, Hk. unfold action_features.
  destruct (bimanual (config self)).
  - change (PyDict.keys
              (PyDict.union
                 (PyDict.of_items
                    (map (fun motor => ("left_" ++ motor ++ ".pos", Float)) _motor_names))
                 (PyDict.of_items
                    (map (fun motor => ("right_" ++ motor ++ ".pos", Float)) _motor_names))))
      with (left_motor_keys ++ right_motor_keys)%list.
    split; [|split].
    + intros k Hin. apply in_or_app. apply in_app_or in Hin.
      destruct Hin as [Hin|Hin]; [left|right]; exact (In_firstn _ _ _ Hin).
    + apply NoDup_app.
      * apply NoDup_firstn. vm_compute. nodup_strings.
      * apply NoDup_firstn. vm_compute. nodup_strings.
      * intros k Hl Hr. apply In_firstn in Hl. apply In_firstn in Hr.
        simpl in Hl, Hr.
        repeat match goal with
               | H : _ \/ _ |- _ => destruct H
               | H : False |- _ => destruct H
               end; subst; discriminate.
    + change (length
                (PyDict.union
                   (PyDict.of_items
                      (map (fun motor => ("left_" ++ motor ++ ".pos", Float)) _motor_names))
                   (PyDict.of_items
                      (map (fun motor => ("right_" ++ motor ++ ".pos", Float)) _motor_names))))
        with (length left_motor_keys + length right_motor_keys).
      rewrite length_app.
      pose proof (length_firstn_le n left_motor_keys).
      pose proof (length_firstn_le m right_motor_keys). lia.
  - change (PyDict.keys
              (PyDict.of_items (map (fun motor => (motor ++ ".pos", Float)) _motor_names)))
      with motor_keys.
    split; [|split].
    + intros k Hin. exact (In_firstn _ _ _ Hin).
    + apply NoDup_firstn. vm_compute. nodup_strings.
    + change (length
                (PyDict.of_items
                   (map (fun motor => (motor ++ ".pos", Float)) _motor_names)))
        with (length motor_keys).
      apply length_firstn_le.
Qed.

(** X4. With the robot interface present, a record [get_action]
    returns holds one key per angle reported, in the order of the motor
    list, for at most six angles per arm: fewer than six angles give
    fewer keys, angles beyond the sixth are dropped, and with six or
    more angles per queried arm the keys are those of
    [action_features]. *)
Theorem get_action_keys_follow_angles
    (self : TelegripTeleoperator) (sys : TelegripSystem) (cl : ControlLoop)
    (ri : RobotInterface) (action : dict spec_float) :
  is_connected self = true ->
  _telegrip_system self = Some sys ->
  control_loop sys = Some cl ->
  robot_interface cl = Some ri ->
  result (get_action self) = Return action ->
  (bimanual (config self) = false ->
   exists right_angles,
     get_arm_angles ri "right" = Return right_angles
     /\ PyDict.keys action = firstn (length right_angles) motor_keys
     /\ (6 <= length right_angles ->
         PyDict.keys action = PyDict.keys (action_features self)))
  /\ (bimanual (config self) = true ->
      exists left_angles right_angles,
        get_arm_angles ri "left" = Return left_angles
        /\ get_arm_angles ri "right" = Return right_angles
        /\ PyDict.keys action
           = (firstn (length left_angles) left_motor_keys
              ++ firstn (length right_angles) right_motor_keys)%list
        /\ (6 <= length left_angles -> 6 <= length right_angles ->
            PyDict.keys action = PyDict.keys (action_features self))).
Proof.
  intros Hc Hs Hcl Hri Hres. split; intros Hbi.
  - rewrite (get_action_single self sys cl Hc Hs Hcl ri Hri Hbi) in Hres.
    destruct (get_arm_angles ri "right") as [ra|e]; [|discriminate Hres].
    destruct (result (store_angles "" ra PyDict.empty self)) as [a|e] eqn:Hr;
      [|discriminate Hres].
    inversion Hres; subst. exists ra.
    pose proof (store_angles_keys_plain ra self action Hr) as Hk.
    split; [reflexivity|]. split; [exact Hk|].
    intros Hsix. rewrite Hk. unfold action_features. rewrite Hbi.
    rewrite firstn_all2 by exact Hsix. reflexivity.
  - rewrite (get_action_bimanual self sys cl Hc Hs Hcl ri Hri Hbi) in Hres.
    destruct (get_arm_angles ri "left") as [la|e]; [|discriminate Hres].
    destruct (result (store_angles "left_" la PyDict.empty self)) as [a|e] eqn:Hl;
      [|discriminate Hres].
    destruct (get_arm_angles ri "right") as [ra|e]; [|discriminate Hres].
    destruct (result (store_angles "right_" ra a self)) as [a'|e] eqn:Hr;
      [|discriminate Hres].
    inversion Hres; subst. exists la, ra.
    pose proof (store_angles_keys_right ra (length la) a self action
                  (store_angles_keys_left la self a Hl) Hr) as Hk.
    split; [reflexivity|]. split; [reflexivity|]. split; [exact Hk|].
    intros Hl6 Hr6. rewrite Hk. unfold action_features. rewrite Hbi.
    rewrite !firstn_all2 by assumption. reflexivity.
Qed.

(* ===================================================================== *)
(** ** Further properties of get_teleop_events *)
(* ===================================================================== *)

Lemma logged_app lvl t1 t2 :
  logged lvl (t1 ++ t2) = (logged lvl t1 ++ logged lvl t2)%list.
Proof.
  induction t1 as [|e t1 IH]; simpl; [reflexivity|].
  destruct e; try exact IH.
  destruct lvl0, lvl; simpl; rewrite ?IH; reflexivity.
Qed.

Lemma fold_event_logged ev events self :
  exists d t,
    fold_event events ev self = (Return d, self, t)
    /\ logged INFO t = button_records [ev]
    /\ logged WARNING t = []
    /\ logged ERROR t = [].
Proof.
  unfold fold_event, button_records, has_type. cbn [flat_map].
  destruct (eq_str (event_type_of ev) "button_a");
    [|destruct (eq_str (event_type_of ev) "button_b")];
    eexists; eexists; run; repeat split.
Qed.

(** The fold logs one record per button event and nothing else. *)
Lemma for_each_fold_event_logged evs : forall events self,
  logged INFO (trace (for_each evs fold_event events self)) = button_records evs
  /\ logged WARNING (trace (for_each evs fold_event events self)) = []
  /\ logged ERROR (trace (for_each evs fold_event events self)) = [].
Proof.
  induction evs as [|ev evs IH]; intros events self.
  - repeat split.
  - cbn [for_each]. unfold bind.
    destruct (fold_event_logged ev events self) as (d & t & Hstep & Hi & Hw & He).
    rewrite Hstep.
    destruct (IH d self) as (Hi' & Hw' & He').
    destruct (for_each evs fold_event d self) as [[r s2] t2].
    unfold trace in *. cbn [snd] in *.
    rewrite !logged_app, Hi, Hw, He, Hi', Hw', He'.
    repeat split.
    unfold button_records. cbn [flat_map]. rewrite app_nil_r. reflexivity.
Qed.

Lemma drain_logs_no_info self :
  logged INFO (trace (_drain_vr_events self)) = []
  /\ logged ERROR (trace (_drain_vr_events self)) = [].
Proof.
  unfold _drain_vr_events. run.
  destruct (_telegrip_system self) as [sys|]; simpl; [|split; reflexivity].
  destruct (get_vr_events sys) as [[evs|e]|]; simpl; split; reflexivity.
Qed.

Lemma not_a_button_has_type ev :
  not_a_button ev ->
  has_type "button_a" ev = false /\ has_type "button_b" ev = false.
Proof.
  unfold not_a_button, has_type, event_type_of.
  destruct (PyDict.get "type" ev) as [[| | | |s]|]; simpl; auto.
  intros [Ha Hb]. split; apply String.eqb_neq; assumption.
Qed.

(** X5. On every adapter, connected or not, [get_teleop_events] returns
    without changing the adapter; in the mapping it returns failure and
    intervention are false, and terminate is true exactly when success
    or rerecord is. *)
Theorem get_teleop_events_shape (self : TelegripTeleoperator) :
  final (get_teleop_events self) = self
  /\ exists success rerecord,
       result (get_teleop_events self)
       = Return (signals success false rerecord false (success || rerecord)).
Proof.
  destruct (get_teleop_events_spec self) as [t H]. rewrite H.
  split; [reflexivity|]. eexists. eexists. reflexivity.
Qed.

(** X6. A subsystem without [get_vr_events], or one whose
    [get_vr_events] raises, makes the poll return the all-false
    mapping; the exception is logged as a warning and not raised. *)
Theorem get_teleop_events_pull_failure (self : TelegripTeleoperator)
    (sys : TelegripSystem) :
  _telegrip_system self = Some sys ->
  (get_vr_events sys = None ->
   get_teleop_events self
   = (Return (signals false false false false false), self, []))
  /\ (forall e, get_vr_events sys = Some (Raise e) ->
      get_teleop_events self
      = (Return (signals false false false false false), self,
         [GetVrEvents; pull_failure_logged e])).
Proof.
  intros Hs. split.
  - intros Hnone. unfold get_teleop_events, _drain_vr_events. run.
    rewrite Hs. simpl. rewrite Hnone. reflexivity.
  - intros e He. unfold get_teleop_events, _drain_vr_events. run.
    rewrite Hs. simpl. rewrite He. reflexivity.
Qed.

(** X7. Events that are not button events are skipped without a trace:
    when every pulled event lacks the "type" entry, carries a type that
    is not a string, or carries another tag, the poll returns the
    all-false mapping and logs no info record. *)
Theorem get_teleop_events_skips_other_events (self : TelegripTeleoperator) :
  (forall ev, In ev (pulled self) -> not_a_button ev) ->
  result (get_teleop_events self)
  = Return (signals false false false false false)
  /\ logged INFO (trace (get_teleop_events self)) = [].
Proof.
  intros Hall.
  assert (Ha : existsb (has_type "button_a") (pulled self) = false
               /\ existsb (has_type "button_b") (pulled self) = false
               /\ button_records (pulled self) = []).
  { unfold button_records.
    induction (pulled self) as [|ev evs IH]; [repeat split|].
    destruct (not_a_button_has_type ev (Hall ev (or_introl eq_refl))) as [H1 H2].
    destruct (IH (fun ev' H => Hall ev' (or_intror H))) as (I1 & I2 & I3).
    simpl. rewrite H1, H2, I1, I2, I3. repeat split. }
  destruct Ha as (Ha & Hb & Hrec). split.
  - destruct (get_teleop_events_spec self) as [t H]. rewrite H.
    unfold result. simpl. rewrite Ha, Hb. reflexivity.
  - unfold get_teleop_events.
    destruct (drain_returns self) as [t1 H1].
    pose proof (drain_logs_no_info self) as [Hd _]. rewrite H1 in Hd.
    unfold bind. rewrite H1.
    destruct (for_each_fold_event_logged (pulled self) initial_events self)
      as (Hi & _ & _).
    destruct (for_each (pulled self) fold_event initial_events self) as [[r s2] t2].
    unfold trace in *. simpl in *. rewrite logged_app, Hd, Hi, Hrec. reflexivity.
Qed.

(** X8. The poll logs one info record per button event pulled, in the
    order of the batch and repeated events included, although each
    signal is only set once; it logs no error. *)
Theorem get_teleop_events_logs_each_button (self : TelegripTeleoperator) :
  logged INFO (trace (get_teleop_events self)) = button_records (pulled self)
  /\ logged ERROR (trace (get_teleop_events self)) = [].
Proof.
  unfold get_teleop_events.
  destruct (drain_returns self) as [t1 H1].
  pose proof (drain_logs_no_info self) as [Hd He]. rewrite H1 in Hd, He.
  unfold bind. rewrite H1.
  destruct (for_each_fold_event_logged (pulled self) initial_events self)
    as (Hi & _ & Herr).
  destruct (for_each (pulled self) fold_event initial_events self) as [[r s2] t2].
  unfold trace in *. simpl in *. rewrite !logged_app, Hd, He, Hi, Herr.
  split; reflexivity.
Qed.

(* ===================================================================== *)
(** ** Further properties of connect and disconnect *)
(* ===================================================================== *)

Ltac enter_connect Hdis := unfold connect; run; rewrite Hdis; simpl.

Ltac thread_cases w sys :=
  unfold in_background, run_telegrip_in_thread; run;
  destruct (new_event_loop w) as [[?l|?en]|] eqn:?Hloop; simpl;
  try (destruct (start sys) as [[]|?es] eqn:?Hstart; simpl).

Ltac engage_cases self sys :=
  destruct (autoconnect (config self) && enable_robot (config self)) eqn:?Hauto;
  simpl in *;
  [ destruct (control_loop sys) as [?cl|] eqn:?Hcl; simpl in *;
    [ match goal with
      | cl : ControlLoop |- _ =>
          destruct (robot_interface cl) as [?ri|] eqn:?Hri; simpl in *;
          [ match goal with
            | ri : RobotInterface |- _ =>
                destruct (engage ri) as [[]|?ee] eqn:?Hengage; simpl in *
            end
          | ]
      end
    | ]
  | ].

(** The adapter a [connect] without a failing step ends in. *)
Lemma connect_success_final w calibrate self sys :
  is_connected self = false ->
  first_failure w (config self) = None ->
  new_TelegripSystem w (telegrip_config_of (config self)) = Return sys ->
  result (connect w calibrate self) = Return tt
  /\ final (connect w calibrate self)
     = mkTeleop (config self) (Some sys) true (Some (new_Thread w))
         (_last_action self)
         (match new_event_loop w with
          | Some (Return l) => Some l
          | _ => _loop self
          end)
         (_left_arm_angles self) (_right_arm_angles self).
Proof.
  intros Hdis Hff Hsys. unfold first_failure in Hff. enter_connect Hdis.
  destruct (import_telegrip w) as [[]|e1]; [|discriminate Hff].
  destruct (new_TelegripSystemConfig w (telegrip_config_of (config self)))
    as [[]|e2]; [|discriminate Hff].
  rewrite Hsys in *. simpl.
  destruct (Thread_start w) as [[]|e4]; [|discriminate Hff]. simpl.
  thread_cases w sys; engage_cases self sys;
    try discriminate Hff; split; reflexivity.
Qed.

(** A [connect] that raises leaves the flag off and the configuration
    in place. *)
Lemma connect_raise_final w calibrate self e :
  is_connected self = false ->
  result (connect w calibrate self) = Raise e ->
  _is_connected (final (connect w calibrate self)) = false
  /\ config (final (connect w calibrate self)) = config self.
Proof.
  intros Hdis. enter_connect Hdis.
  destruct (import_telegrip w) as [[]|e1]; simpl; [|split; reflexivity].
  destruct (new_TelegripSystemConfig w (telegrip_config_of (config self)))
    as [[]|e2]; simpl; [|split; reflexivity].
  destruct (new_TelegripSystem w (telegrip_config_of (config self)))
    as [sys|e3]; simpl; [|split; reflexivity].
  destruct (Thread_start w) as [[]|e4]; simpl; [|split; reflexivity].
  thread_cases w sys; engage_cases self sys;
    intros Hres; try discriminate Hres; split; reflexivity.
Qed.

(** X9. When no step of the setup raises, [connect] on a disconnected
    adapter returns with the new subsystem and the new thread stored
    and the flag set, whatever happens inside the background thread.
    The adapter then reports itself connected exactly when the
    subsystem reports itself running, and it holds the loop of the
    thread only if the thread had created one by then. *)
Theorem connect_success (w : ConnectWorld) (calibrate : bool)
    (self : TelegripTeleoperator) (sys : TelegripSystem) :
  is_connected self = false ->
  first_failure w (config self) = None ->
  new_TelegripSystem w (telegrip_config_of (config self)) = Return sys ->
  result (connect w calibrate self) = Return tt
  /\ _telegrip_system (final (connect w calibrate self)) = Some sys
  /\ _telegrip_thread (final (connect w calibrate self)) = Some (new_Thread w)
  /\ _is_connected (final (connect w calibrate self)) = true
  /\ is_connected (final (connect w calibrate self)) = is_running sys
  /\ _loop (final (connect w calibrate self))
     = match new_event_loop w with
       | Some (Return l) => Some l
       | _ => _loop self
       end
  /\ config (final (connect w calibrate self)) = config self
  /\ _last_action (final (connect w calibrate self)) = _last_action self.
Proof.
  intros Hdis Hff Hsys.
  destruct (connect_success_final w calibrate self sys Hdis Hff Hsys) as [Hr Hf].
  rewrite Hf. repeat split; try assumption.
  unfold is_connected. simpl. apply andb_true_r.
Qed.

(** X10. What goes wrong in the background thread stays there. If
    [start()] raises, [connect] still returns with the flag set; the
    thread logs the error and closes its loop, and the adapter keeps
    that loop. If creating the loop raises, [connect] still returns,
    nothing is logged and the adapter's loop reference is unchanged. *)
Theorem connect_contains_thread_failures (w : ConnectWorld) (calibrate : bool)
    (self : TelegripTeleoperator) (sys : TelegripSystem) :
  is_connected self = false ->
  first_failure w (config self) = None ->
  new_TelegripSystem w (telegrip_config_of (config self)) = Return sys ->
  (forall l e,
     new_event_loop w = Some (Return l) -> start sys = Raise e ->
     result (connect w calibrate self) = Return tt
     /\ _is_connected (final (connect w calibrate self)) = true
     /\ _loop (final (connect w calibrate self)) = Some l
     /\ logged ERROR (trace (connect w calibrate self))
        = [([Lit "Error in telegrip thread: "], Some e)]
     /\ In (LoopClose l) (trace (connect w calibrate self)))
  /\ (forall e,
        new_event_loop w = Some (Raise e) ->
        result (connect w calibrate self) = Return tt
        /\ _is_connected (final (connect w calibrate self)) = true
        /\ _loop (final (connect w calibrate self)) = _loop self
        /\ logged ERROR (trace (connect w calibrate self)) = []).
Proof.
  intros Hdis Hff Hsys. unfold first_failure in Hff.
  split.
  - intros l e Hl He. enter_connect Hdis.
    destruct (import_telegrip w) as [[]|e1]; [|discriminate Hff].
    destruct (new_TelegripSystemConfig w (telegrip_config_of (config self)))
      as [[]|e2]; [|discriminate Hff].
    rewrite Hsys in *. simpl.
    destruct (Thread_start w) as [[]|e4]; [|discriminate Hff]. simpl.
    unfold in_background, run_telegrip_in_thread. run.
    rewrite Hl. simpl. rewrite He. simpl.
    engage_cases self sys; try discriminate Hff;
      repeat split; simpl; auto 20.
  - intros e Hl. enter_connect Hdis.
    destruct (import_telegrip w) as [[]|e1]; [|discriminate Hff].
    destruct (new_TelegripSystemConfig w (telegrip_config_of (config self)))
      as [[]|e2]; [|discriminate Hff].
    rewrite Hsys in *. simpl.
    destruct (Thread_start w) as [[]|e4]; [|discriminate Hff]. simpl.
    unfold in_background, run_telegrip_in_thread. run.
    rewrite Hl. simpl.
    engage_cases self sys; try discriminate Hff; repeat split.
Qed.

(** X11. [connect] calls [engage()] at most once, and only with both
    [autoconnect] and [enable_robot] set, after three seconds of sleep
    in all. *)
Theorem connect_engages_only_when_configured (w : ConnectWorld)
    (calibrate : bool) (self : TelegripTeleoperator) :
  engage_calls (trace (connect w calibrate self)) <= 1
  /\ (engage_calls (trace (connect w calibrate self)) = 1 ->
      autoconnect (config self) = true
      /\ enable_robot (config self) = true
      /\ seconds_slept (trace (connect w calibrate self)) = 3%Z).
Proof.
  destruct (is_connected self) eqn:Hdis; enter_connect Hdis.
  { split; [lia|discriminate]. }
  destruct (import_telegrip w) as [[]|e1]; simpl; [|split; [lia|discriminate]].
  destruct (new_TelegripSystemConfig w (telegrip_config_of (config self)))
    as [[]|e2]; simpl; [|split; [lia|discriminate]].
  destruct (new_TelegripSystem w (telegrip_config_of (config self)))
    as [sys|e3]; simpl; [|split; [lia|discriminate]].
  destruct (Thread_start w) as [[]|e4]; simpl; [|split; [lia|discriminate]].
  thread_cases w sys; engage_cases self sys;
    (split; [lia|]); try discriminate;
    intros _; apply andb_prop in Hauto; destruct Hauto; repeat split; assumption.
Qed.

(** X12. [connect] builds at most one subsystem, and the configuration
    it hands over maps "left" to a non-empty port, the configured left
    port when one is set and not empty and "/dev/ttySO100red"
    otherwise, and "right" to the configured right port as it is. *)
Theorem connect_follower_ports (w : ConnectWorld) (calibrate : bool)
    (self : TelegripTeleoperator) (built : TelegripSystemConfig) :
  In built (systems_built (trace (connect w calibrate self))) ->
  systems_built (trace (connect w calibrate self)) = [built]
  /\ exists left,
       follower_ports built
       = [("left", left); ("right", right_arm_port (config self))]
       /\ left <> ""
       /\ (forall p, left_arm_port (config self) = Some p -> p <> "" -> left = p)
       /\ (left_arm_port (config self) = None -> left = "/dev/ttySO100red")
       /\ (left_arm_port (config self) = Some "" -> left = "/dev/ttySO100red").
Proof.
  assert (Hports : exists left,
             follower_ports (telegrip_config_of (config self))
             = [("left", left); ("right", right_arm_port (config self))]
             /\ left <> ""
             /\ (forall p, left_arm_port (config self) = Some p -> p <> "" -> left = p)
             /\ (left_arm_port (config self) = None -> left = "/dev/ttySO100red")
             /\ (left_arm_port (config self) = Some "" -> left = "/dev/ttySO100red")).
  { unfold telegrip_config_of. simpl.
    destruct (left_arm_port (config self)) as [[|c p]|]; simpl;
      eexists; (split; [reflexivity|]); repeat split;
      try discriminate; try reflexivity;
      try (intros p' Hp Hne; inversion Hp; subst; try reflexivity;
           exfalso; apply Hne; reflexivity). }
  destruct (is_connected self) eqn:Hdis; enter_connect Hdis.
  { intros []. }
  destruct (import_telegrip w) as [[]|e1]; simpl; [|intros []].
  destruct (new_TelegripSystemConfig w (telegrip_config_of (config self)))
    as [[]|e2]; simpl; [|intros []].
  destruct (new_TelegripSystem w (telegrip_config_of (config self)))
    as [sys|e3]; simpl; [|intros [<-|[]]; split; [reflexivity|exact Hports]].
  destruct (Thread_start w) as [[]|e4]; simpl;
    [|intros [<-|[]]; split; [reflexivity|exact Hports]].
  thread_cases w sys; engage_cases self sys;
    intros [<-|[]]; (split; [reflexivity|exact Hports]).
Qed.

(** A [disconnect] on a connected adapter holding a loop, with asyncio
    and threading answering, returns and releases every reference. *)
Lemma disconnect_released w self lp :
  is_connected self = true ->
  _loop self = Some lp ->
  run_coroutine_threadsafe w = Return tt ->
  call_soon_threadsafe w = Return tt ->
  Thread_join w = Return tt ->
  result (disconnect w self) = Return tt
  /\ final (disconnect w self) = released self.
Proof.
  intros Hc Hl Hrun Hsoon Hjoin.
  destruct (connected_has_system self Hc) as [sys Hs].
  unfold disconnect. run. rewrite Hc. simpl. rewrite Hs, Hl. simpl.
  rewrite Hrun, Hsoon, Hjoin. simpl.
  unfold fut_result.
  destruct (stop sys); simpl; destruct (_telegrip_thread self); simpl;
    split; reflexivity.
Qed.

(** X13. A [disconnect] that raises has changed nothing: the adapter is
    exactly as before the call, still connected if it was. On a
    connected adapter the exception was logged as an error just before
    being re-raised; on a disconnected one it is the not-connected
    error. *)
Theorem disconnect_raises_without_change (w : DisconnectWorld)
    (self : TelegripTeleoperator) (e : exn) :
  result (disconnect w self) = Raise e ->
  final (disconnect w self) = self
  /\ (is_connected self = true ->
      last_effect (trace (disconnect w self)) = Some (disconnect_failure_logged e))
  /\ (is_connected self = false -> e = not_connected_disconnect).
Proof.
  destruct (is_connected self) eqn:Hc.
  - destruct (connected_has_system self Hc) as [sys Hs].
    unfold disconnect. run. rewrite Hc. simpl. rewrite Hs. simpl.
    destruct (_loop self) as [lp|]; simpl; [|discriminate].
    destruct (run_coroutine_threadsafe w) as [[]|e1]; simpl.
    2:{ intros H; inversion H; subst. repeat split. discriminate. }
    unfold fut_result.
    destruct (stop sys); simpl;
      (destruct (call_soon_threadsafe w) as [[]|e2]; simpl;
       [ destruct (_telegrip_thread self) as [t|]; simpl;
         [ destruct (Thread_join w) as [[]|e3]; simpl | ]
       | ]);
      intros H; try discriminate H; inversion H; subst;
      repeat split; discriminate.
  - unfold disconnect. run. rewrite Hc. simpl.
    intros H; inversion H; subst. repeat split. discriminate.
Qed.

(** X14. Whatever awaiting [stop()] ends in, a [disconnect] whose
    calls into asyncio and threading succeed does the same things in
    the same order: it submits [stop()] to the loop, waits up to five
    seconds for it, asks the loop to stop, joins the thread for up to
    five seconds, and ends with every reference released. It logs a
    warning exactly when [stop()] raised or timed out. *)
Theorem disconnect_sequence (w : DisconnectWorld) (self : TelegripTeleoperator)
    (sys : TelegripSystem) (lp : Loop) (t : Thread) :
  is_connected self = true ->
  _telegrip_system self = Some sys ->
  _loop self = Some lp ->
  _telegrip_thread self = Some t ->
  run_coroutine_threadsafe w = Return tt ->
  call_soon_threadsafe w = Return tt ->
  Thread_join w = Return tt ->
  disconnect w self
  = (Return tt, released self,
     ([Log INFO [Lit "Stopping telegrip system..."] None;
       RunCoroutineThreadsafe lp; FutResult 5]
      ++ stop_warning (stop sys)
      ++ [CallSoonThreadsafe lp; ThreadJoin t 5;
          Log INFO [Self; Lit " disconnected successfully"] None])%list)
  /\ (stop_warning (stop sys) = [] <-> stop sys = StopCompleted).
Proof.
  intros Hc Hs Hl Ht Hrun Hsoon Hjoin. split.
  - unfold disconnect. run. rewrite Hc. simpl. rewrite Hs, Hl. simpl.
    rewrite Hrun. simpl. unfold stop_warning, fut_result.
    destruct (stop sys); simpl; rewrite Hsoon; simpl; rewrite Ht; simpl;
      rewrite Hjoin; reflexivity.
  - unfold stop_warning, fut_result.
    destruct (stop sys); split; intros H; try reflexivity; discriminate H.
Qed.

(** X15. Connecting and then disconnecting gives back a released
    adapter: when the setup does not fail, the subsystem runs, the
    thread has created its loop and asyncio answers, both calls return
    and the adapter ends with its configuration and cached action as
    before and no reference left; a freshly constructed adapter ends
    exactly as it started. *)
Theorem connect_disconnect_round_trip (w : ConnectWorld) (dw : DisconnectWorld)
    (calibrate : bool) (self : TelegripTeleoperator) (sys : TelegripSystem)
    (l : Loop) :
  is_connected self = false ->
  first_failure w (config self) = None ->
  new_TelegripSystem w (telegrip_config_of (config self)) = Return sys ->
  is_running sys = true ->
  new_event_loop w = Some (Return l) ->
  run_coroutine_threadsafe dw = Return tt ->
  call_soon_threadsafe dw = Return tt ->
  Thread_join dw = Return tt ->
  result (connect w calibrate self) = Return tt
  /\ result (disconnect dw (final (connect w calibrate self))) = Return tt
  /\ final (disconnect dw (final (connect w calibrate self))) = released self
  /\ (self = __init__ (config self) ->
      final (disconnect dw (final (connect w calibrate self))) = self).
Proof.
  intros Hdis Hff Hsys Hrun Hloop Hsub Hsoon Hjoin.
  destruct (connect_success_final w calibrate self sys Hdis Hff Hsys) as [Hr Hf].
  rewrite Hloop in Hf.
  assert (Hc : is_connected (final (connect w calibrate self)) = true).
  { rewrite Hf. unfold is_connected. simpl. rewrite Hrun. reflexivity. }
  assert (Hl : _loop (final (connect w calibrate self)) = Some l).
  { rewrite Hf. reflexivity. }
  destruct (disconnect_released dw _ l Hc Hl Hsub Hsoon Hjoin) as [Hdr Hdf].
  split; [exact Hr|]. split; [exact Hdr|].
  assert (Hrel : final (disconnect dw (final (connect w calibrate self)))
                 = released self).
  { rewrite Hdf, Hf. reflexivity. }
  split; [exact Hrel|].
  intros Hfresh. rewrite Hrel. rewrite Hfresh. reflexivity.
Qed.

(** X16. After a [connect] that raised, the adapter counts as
    disconnected: [disconnect] refuses with the not-connected error and
    touches nothing, so whatever the failed call left stored stays
    stored; a new [connect] is not refused, and one without a failing
    step returns with the new subsystem and thread in place of the old
    ones. *)
Theorem failed_connect_then (w : ConnectWorld) (calibrate : bool)
    (self : TelegripTeleoperator) (e : exn) :
  is_connected self = false ->
  result (connect w calibrate self) = Raise e ->
  (forall dw,
     disconnect dw (final (connect w calibrate self))
     = (Raise not_connected_disconnect, final (connect w calibrate self), []))
  /\ (forall w' calibrate' sys',
        first_failure w' (config self) = None ->
        new_TelegripSystem w' (telegrip_config_of (config self)) = Return sys' ->
        result (connect w' calibrate' (final (connect w calibrate self))) = Return tt
        /\ _telegrip_system
             (final (connect w' calibrate' (final (connect w calibrate self))))
           = Some sys'
        /\ _telegrip_thread
             (final (connect w' calibrate' (final (connect w calibrate self))))
           = Some (new_Thread w')).
Proof.
  intros Hdis Hres.
  destruct (connect_raise_final w calibrate self e Hdis Hres) as [Hflag Hcfg].
  pose proof (flag_off_not_connected _ Hflag) as Hoff.
  split.
  - intros dw. revert Hoff. generalize (final (connect w calibrate self)).
    intros s' Hoff. unfold disconnect. run. rewrite Hoff. reflexivity.
  - intros w' calibrate' sys' Hff Hsys. rewrite <- Hcfg in Hff, Hsys.
    destruct (connect_success_final w' calibrate' _ sys' Hoff Hff Hsys) as [Hr Hf].
    rewrite Hf. repeat split. exact Hr.
Qed.

(** X17. A subsystem without a control loop is tolerated by [connect],
    which then skips the engage call even with auto-connect on, but not
    by [get_action]: reading the robot interface off the missing
    control loop raises an attribute error, which is logged and
    re-raised with the adapter unchanged. *)
Theorem without_control_loop (sys : TelegripSystem) :
  control_loop sys = None ->
  (forall w calibrate self,
     is_connected self = false ->
     import_telegrip w = Return tt ->
     new_TelegripSystemConfig w (telegrip_config_of (config self)) = Return tt ->
     new_TelegripSystem w (telegrip_config_of (config self)) = Return sys ->
     Thread_start w = Return tt ->
     result (connect w calibrate self) = Return tt
     /\ engage_calls (trace (connect w calibrate self)) = 0)
  /\ (forall self,
        is_connected self = true ->
        _telegrip_system self = Some sys ->
        get_action self
        = (Raise (none_has_no_attribute "robot_interface"), self,
           [error_logged (none_has_no_attribute "robot_interface")])).
Proof.
  intros Hcl. split.
  - intros w calibrate self Hdis Himp Hcfg Hsys Hstart. enter_connect Hdis.
    rewrite Himp. simpl. rewrite Hcfg. simpl. rewrite Hsys. simpl.
    rewrite Hstart. simpl.
    thread_cases w sys;
      destruct (autoconnect (config self) && enable_robot (config self)); simpl;
      rewrite ?Hcl; simpl; split; reflexivity.
  - intros self Hc Hs.
    unfold get_action. run. rewrite Hc. simpl. rewrite Hs. simpl.
    rewrite Hcl. reflexivity.
Qed.

(** X18. A [connect] that returns has slept two seconds, or three with
    both [autoconnect] and [enable_robot] set; it has engaged the
    motors once when both are set and the subsystem exposes a robot
    interface, and not at all otherwise. *)
Theorem connect_settle_and_engage (w : ConnectWorld) (calibrate : bool)
    (self : TelegripTeleoperator) (sys : TelegripSystem) :
  is_connected self = false ->
  first_failure w (config self) = None ->
  new_TelegripSystem w (telegrip_config_of (config self)) = Return sys ->
  seconds_slept (trace (connect w calibrate self))
  = (if autoconnect (config self) && enable_robot (config self) then 3 else 2)%Z
  /\ engage_calls (trace (connect w calibrate self))
     = (if autoconnect (config self) && enable_robot (config self)
        then match control_loop sys with
             | Some cl =>
                 match robot_interface cl with
                 | Some _ => 1
                 | None => 0
                 end
             | None => 0
             end
        else 0).
Proof.
  intros Hdis Hff Hsys. unfold first_failure in Hff. enter_connect Hdis.
  destruct (import_telegrip w) as [[]|e1]; [|discriminate Hff].
  destruct (new_TelegripSystemConfig w (telegrip_config_of (config self)))
    as [[]|e2]; [|discriminate Hff].
  rewrite Hsys in *. simpl.
  destruct (Thread_start w) as [[]|e4]; [|discriminate Hff]. simpl.
  thread_cases w sys; engage_cases self sys;
    try discriminate Hff; split; reflexivity.
Qed.

Lemma get_set_same {V} k (v : V) (d : dict V) :
  PyDict.get k (PyDict.set k v d) = Some v.
Proof.
  induction d as [|[k' v'] d IH]; simpl.
  - rewrite String.eqb_refl. reflexivity.
  - destruct (String.eqb k k') eqn:E; simpl; rewrite E; [reflexivity|exact IH].
Qed.

Lemma get_set_other {V} k k' (v : V) (d : dict V) :
  k <> k' -> PyDict.get k (PyDict.set k' v d) = PyDict.get k d.
Proof.
  intros Hne. apply String.eqb_neq in Hne.
  induction d as [|[k'' v''] d IH]; simpl.
  - rewrite Hne. reflexivity.
  - destruct (String.eqb k' k'') eqn:E; simpl.
    + apply String.eqb_eq in E. subst k''. rewrite Hne. reflexivity.
    + destruct (String.eqb k k''); [reflexivity|exact IH].
Qed.

(** Storing angles leaves the entries under other keys alone. *)
Lemma for_each_store_other prefix k : forall names angles action self action',
  ~ In k (map (fun m => prefix ++ m ++ ".pos") names) ->
  result (for_each (combine names angles)
            (fun action p =>
               f <- lift (float_of (snd p)) ;;
               ret (PyDict.set (prefix ++ fst p ++ ".pos") f action))
            action self) = Return action' ->
  PyDict.get k action' = PyDict.get k action.
Proof.
  induction names as [|m names IH]; intros angles action self action' Hk Hres.
  - simpl in Hres. unfold ret, result in Hres. simpl in Hres.
    inversion Hres; subst. reflexivity.
  - destruct angles as [|x angles].
    + simpl in Hres. unfold ret, result in Hres. simpl in Hres.
      inversion Hres; subst. reflexivity.
    + cbn [combine for_each fst snd map] in *.
      unfold bind at 1 in Hres. unfold bind at 1 in Hres. unfold lift at 1 in Hres.
      destruct (float_of x) as [f|e]; [|discriminate Hres].
      unfold ret at 1 in Hres.
      match type of Hres with
      | context [for_each ?l ?b ?a ?s] =>
          destruct (for_each l b a s) as [[r s2] t2] eqn:Hrest
      end.
      unfold result in Hres. simpl in Hres. subst r.
      rewrite (IH angles (PyDict.set (prefix ++ m ++ ".pos") f action) self action').
      * apply get_set_other. intros Heq. apply Hk. left. symmetry. exact Heq.
      * intros Hin. apply Hk. right. exact Hin.
      * rewrite Hrest. reflexivity.
Qed.

(** After storing, the key of the i-th name holds the float of the
    i-th angle. *)
Lemma for_each_store_lookup prefix : forall names angles action self action',
  NoDup (map (fun m => prefix ++ m ++ ".pos") names) ->
  result (for_each (combine names angles)
            (fun action p =>
               f <- lift (float_of (snd p)) ;;
               ret (PyDict.set (prefix ++ fst p ++ ".pos") f action))
            action self) = Return action' ->
  forall i m x,
    nth_error names i = Some m -> nth_error angles i = Some x ->
    exists f, float_of x = Return f
              /\ PyDict.get (prefix ++ m ++ ".pos") action' = Some f.
Proof.
  induction names as [|m0 names IH]; intros angles action self action' Hnd Hres i m x Hm Hx.
  - destruct i; discriminate Hm.
  - destruct angles as [|x0 angles]; [destruct i; discriminate Hx|].
    cbn [combine for_each fst snd map] in *.
    unfold bind at 1 in Hres. unfold bind at 1 in Hres. unfold lift at 1 in Hres.
    destruct (float_of x0) as [f0|e] eqn:Hf0; [|discriminate Hres].
    unfold ret at 1 in Hres.
    inversion Hnd as [|? ? Hfresh Hnd']; subst.
    match type of Hres with
    | context [for_each ?l ?b ?a ?s] =>
        destruct (for_each l b a s) as [[r s2] t2] eqn:Hrest
    end.
    unfold result in Hres. simpl in Hres. subst r.
    assert (Hrest' : result (for_each (combine names angles)
                               (fun action p =>
                                  f <- lift (float_of (snd p)) ;;
                                  ret (PyDict.set (prefix ++ fst p ++ ".pos") f action))
                               (PyDict.set (prefix ++ m0 ++ ".pos") f0 action) self)
                     = Return action')
      by (rewrite Hrest; reflexivity).
    destruct i as [|i]; simpl in Hm, Hx.
    + inversion Hm; inversion Hx; subst. exists f0. split; [exact Hf0|].
      rewrite (for_each_store_other prefix _ names angles _ self action' Hfresh Hrest').
      apply get_set_same.
    + exact (IH angles _ self action' Hnd' Hrest' i m x Hm Hx).
Qed.

(** X19. In a record [get_action] returns, each motor key holds the
    float of the angle at the same position: with one arm the i-th
    motor's key holds the i-th right angle, with two arms the
    "left_"/"right_" key of the i-th motor holds the i-th angle of that
    arm. *)
Theorem get_action_values
    (self : TelegripTeleoperator) (sys : TelegripSystem) (cl : ControlLoop)
    (ri : RobotInterface) (action : dict spec_float) :
  is_connected self = true ->
  _telegrip_system self = Some sys ->
  control_loop sys = Some cl ->
  robot_interface cl = Some ri ->
  result (get_action self) = Return action ->
  forall i motor,
    nth_error _motor_names i = Some motor ->
    (bimanual (config self) = false ->
     forall right_angles x,
       get_arm_angles ri "right" = Return right_angles ->
       nth_error right_angles i = Some x ->
       exists f, float_of x = Return f
                 /\ PyDict.get (motor ++ ".pos") action = Some f)
    /\ (bimanual (config self) = true ->
        (forall left_angles x,
           get_arm_angles ri "left" = Return left_angles ->
           nth_error left_angles i = Some x ->
           exists f, float_of x = Return f
                     /\ PyDict.get ("left_" ++ motor ++ ".pos") action = Some f)
        /\ (forall right_angles x,
              get_arm_angles ri "right" = Return right_angles ->
              nth_error right_angles i = Some x ->
              exists f, float_of x = Return f
                        /\ PyDict.get ("right_" ++ motor ++ ".pos") action = Some f)).
Proof.
  intros Hc Hs Hcl Hri Hres i motor Hm. split; intros Hbi.
  - intros ra x Hra Hx.
    rewrite (get_action_single self sys cl Hc Hs Hcl ri Hri Hbi), Hra in Hres.
    destruct (result (store_angles "" ra PyDict.empty self)) as [a|e] eqn:Hr;
      [|discriminate Hres].
    inversion Hres; subst. unfold store_angles in Hr.
    exact (for_each_store_lookup "" _motor_names ra PyDict.empty self action
             ltac:(vm_compute; nodup_strings) Hr i motor x Hm Hx).
  - rewrite (get_action_bimanual self sys cl Hc Hs Hcl ri Hri Hbi) in Hres.
    destruct (get_arm_angles ri "left") as [la|e]; [|discriminate Hres].
    destruct (result (store_angles "left_" la PyDict.empty self)) as [a|e] eqn:Hl;
      [|discriminate Hres].
    destruct (get_arm_angles ri "right") as [ra|e]; [|discriminate Hres].
    destruct (result (store_angles "right_" ra a self)) as [a'|e] eqn:Hr;
      [|discriminate Hres].
    inversion Hres; subst. unfold store_angles in Hl, Hr. split.
    + intros la' x Hla Hx. inversion Hla; subst la'.
      destruct (for_each_store_lookup "left_" _motor_names la PyDict.empty self a
                  ltac:(vm_compute; nodup_strings) Hl i motor x Hm Hx)
        as (f & Hf & Hget).
      exists f. split; [exact Hf|].
      rewrite (for_each_store_other "right_" ("left_" ++ motor ++ ".pos")
                 _motor_names ra a self action); [exact Hget | | exact Hr].
      simpl. intros Hin.
      repeat match goal with
             | H : _ \/ _ |- _ => destruct H
             | H : False |- _ => destruct H
             end; discriminate.
    + intros ra' x Hra Hx. inversion Hra; subst ra'.
      exact (for_each_store_lookup "right_" _motor_names ra a self action
               ltac:(vm_compute; nodup_strings) Hr i motor x Hm Hx).
Qed.

(* ===================================================================== *)
(** ** Instances of the further properties *)
(* ===================================================================== *)

Lemma get_action_bimanual_left_first_witness :
  sides_queried
    (trace (get_action
              (connected_to (TelegripConfig_with true false)
                 (running_system (Some arms_unplugged) []))))
  = ["left"]
  /\ result (get_action
               (connected_to (TelegripConfig_with true false)
                  (running_system (Some arms_unplugged) [])))
     = Raise serial_error.
Proof.
  exact (proj1 (proj2 (get_action_bimanual_left_first
                         (connected_to (TelegripConfig_with true false)
                            (running_system (Some arms_unplugged) []))
                         (running_system (Some arms_unplugged) [])
                         {| robot_interface := Some arms_unplugged |}
                         arms_unplugged eq_refl eq_refl eq_refl eq_refl eq_refl))
           serial_error eq_refl).
Defined.

Lemma get_action_within_features_witness :
  incl ["shoulder_pan.pos"; "shoulder_lift.pos"; "elbow_flex.pos"] motor_keys
  /\ NoDup ["shoulder_pan.pos"; "shoulder_lift.pos"; "elbow_flex.pos"].
Proof.
  destruct (get_action_within_features
              (connected_to TelegripConfig_default
                 (running_system (Some arms_three_angles) []))
              [ ("shoulder_pan.pos", S754_finite false 4503599627370496 (-52));
                ("shoulder_lift.pos", S754_finite false 4503599627370496 (-51));
                ("elbow_flex.pos", S754_finite false 6755399441055744 (-51)) ]
              eq_refl)
    as (Hincl & Hnd & _).
  split; [exact Hincl | exact Hnd].
Defined.

Lemma get_action_keys_follow_angles_witness :
  (exists right_angles,
     get_arm_angles arms_eight_angles "right" = Return right_angles
     /\ motor_keys = firstn (length right_angles) motor_keys
     /\ (6 <= length right_angles ->
         motor_keys
         = PyDict.keys
             (action_features
                (connected_to TelegripConfig_default
                   (running_system (Some arms_eight_angles) []))))).
Proof.
  exact (proj1 (get_action_keys_follow_angles
                  (connected_to TelegripConfig_default
                     (running_system (Some arms_eight_angles) []))
                  (running_system (Some arms_eight_angles) [])
                  {| robot_interface := Some arms_eight_angles |}
                  arms_eight_angles
                  [ ("shoulder_pan.pos", S754_finite false 4503599627370496 (-52));
                    ("shoulder_lift.pos", S754_finite false 4503599627370496 (-51));
                    ("elbow_flex.pos", S754_finite false 6755399441055744 (-51));
                    ("wrist_flex.pos", S754_finite false 4503599627370496 (-50));
                    ("wrist_roll.pos", S754_finite false 5629499534213120 (-50));
                    ("gripper.pos", S754_finite false 6755399441055744 (-50)) ]
                  eq_refl eq_refl eq_refl eq_refl eq_refl)
           eq_refl).
Defined.

Lemma get_teleop_events_pull_failure_witness :
  get_teleop_events (connected_to TelegripConfig_default system_failing_pull)
  = (Return (signals false false false false false),
     connected_to TelegripConfig_default system_failing_pull,
     [GetVrEvents; pull_failure_logged websocket_error]).
Proof.
  exact (proj2 (get_teleop_events_pull_failure
                  (connected_to TelegripConfig_default system_failing_pull)
                  system_failing_pull eq_refl)
           websocket_error eq_refl).
Defined.

Lemma get_teleop_events_skips_other_events_witness :
  result (get_teleop_events
            (connected_to TelegripConfig_default
               (running_system None [untyped_event; numbered_event; unknown_event])))
  = Return (signals false false false false false)
  /\ logged INFO
       (trace (get_teleop_events
                 (connected_to TelegripConfig_default
                    (running_system None
                       [untyped_event; numbered_event; unknown_event]))))
     = [].
Proof.
  apply get_teleop_events_skips_other_events.
  intros ev Hin. vm_compute in Hin.
  destruct Hin as [<-|[<-|[<-|[]]]]; vm_compute; auto.
  split; discriminate.
Defined.

Lemma connect_success_witness :
  result (connect (world_with system_failing_start None) true
            (__init__ TelegripConfig_default)) = Return tt
  /\ is_connected
       (final (connect (world_with system_failing_start None) true
                 (__init__ TelegripConfig_default)))
     = false.
Proof.
  destruct (connect_success (world_with system_failing_start None) true
              (__init__ TelegripConfig_default) system_failing_start
              eq_refl eq_refl eq_refl)
    as (Hr & _ & _ & _ & Hc & _).
  split; [exact Hr | exact Hc].
Defined.

Lemma connect_contains_thread_failures_witness :
  result (connect (world_with system_failing_start (Some (Return loop1))) true
            (__init__ TelegripConfig_default)) = Return tt
  /\ logged ERROR
       (trace (connect (world_with system_failing_start (Some (Return loop1))) true
                 (__init__ TelegripConfig_default)))
     = [([Lit "Error in telegrip thread: "], Some serial_error)]
  /\ result (connect (world_with (running_system None [])
                        (Some (Raise loop_closed_error))) true
               (__init__ TelegripConfig_default)) = Return tt.
Proof.
  destruct (proj1 (connect_contains_thread_failures
                     (world_with system_failing_start (Some (Return loop1))) true
                     (__init__ TelegripConfig_default) system_failing_start
                     eq_refl eq_refl eq_refl)
              loop1 serial_error eq_refl eq_refl)
    as (Hr & _ & _ & Hlog & _).
  destruct (proj2 (connect_contains_thread_failures
                     (world_with (running_system None [])
                        (Some (Raise loop_closed_error))) true
                     (__init__ TelegripConfig_default) (running_system None [])
                     eq_refl eq_refl eq_refl)
              loop_closed_error eq_refl)
    as (Hr' & _).
  split; [exact Hr|]. split; [exact Hlog | exact Hr'].
Defined.

Lemma connect_engages_only_when_configured_witness :
  autoconnect (TelegripConfig_with false true) = true
  /\ enable_robot (TelegripConfig_with false true) = true
  /\ seconds_slept
       (trace (connect (world_with (running_system (Some arms_1_to_12) [])
                          (Some (Return loop1))) true
                 (__init__ (TelegripConfig_with false true))))
     = 3%Z.
Proof.
  exact (proj2 (connect_engages_only_when_configured
                  (world_with (running_system (Some arms_1_to_12) [])
                     (Some (Return loop1))) true
                  (__init__ (TelegripConfig_with false true)))
           eq_refl).
Defined.

Lemma connect_follower_ports_witness :
  exists left,
    follower_ports (telegrip_config_of TelegripConfig_default)
    = [("left", left); ("right", "/dev/ttyACM0")]
    /\ left <> ""
    /\ (forall p, left_arm_port TelegripConfig_default = Some p -> p <> "" -> left = p)
    /\ (left_arm_port TelegripConfig_default = None -> left = "/dev/ttySO100red")
    /\ (left_arm_port TelegripConfig_default = Some "" -> left = "/dev/ttySO100red").
Proof.
  exact (proj2 (connect_follower_ports
                  (world_with (running_system None []) None) true
                  (__init__ TelegripConfig_default)
                  (telegrip_config_of TelegripConfig_default)
                  (or_introl eq_refl))).
Defined.

Lemma disconnect_raises_without_change_witness :
  final (disconnect asyncio_loop_closed
           (connected_to TelegripConfig_default (running_system None [])))
  = connected_to TelegripConfig_default (running_system None [])
  /\ last_effect
       (trace (disconnect asyncio_loop_closed
                 (connected_to TelegripConfig_default (running_system None []))))
     = Some (disconnect_failure_logged loop_closed_error).
Proof.
  destruct (disconnect_raises_without_change asyncio_loop_closed
              (connected_to TelegripConfig_default (running_system None []))
              loop_closed_error eq_refl)
    as (Hsame & Hlog & _).
  split; [exact Hsame | exact (Hlog eq_refl)].
Defined.

Lemma disconnect_sequence_witness :
  trace (disconnect asyncio_ok
           (connected_to TelegripConfig_default (running_system None [])))
  = [ Log INFO [Lit "Stopping telegrip system..."] None;
      RunCoroutineThreadsafe loop1; FutResult 5;
      Log WARNING [Lit "Timed out or failed stopping telegrip cleanly: "]
        (Some (mkExn TimeoutError []));
      CallSoonThreadsafe loop1; ThreadJoin thread1 5;
      Log INFO [Self; Lit " disconnected successfully"] None ].
Proof.
  rewrite (proj1 (disconnect_sequence asyncio_ok
                    (connected_to TelegripConfig_default (running_system None []))
                    (running_system None []) loop1 thread1
                    eq_refl eq_refl eq_refl eq_refl eq_refl eq_refl eq_refl)).
  reflexivity.
Defined.

Lemma connect_disconnect_round_trip_witness :
  final (disconnect asyncio_ok
           (final (connect (world_with (running_system (Some arms_1_to_12) [])
                              (Some (Return loop1))) true
                     (__init__ TelegripConfig_default))))
  = __init__ TelegripConfig_default.
Proof.
  exact (proj2 (proj2 (proj2 (connect_disconnect_round_trip
                                (world_with (running_system (Some arms_1_to_12) [])
                                   (Some (Return loop1)))
                                asyncio_ok true (__init__ TelegripConfig_default)
                                (running_system (Some arms_1_to_12) []) loop1
                                eq_refl eq_refl eq_refl eq_refl eq_refl
                                eq_refl eq_refl eq_refl)))
           eq_refl).
Defined.

Lemma failed_connect_then_witness :
  result (disconnect asyncio_ok
            (final (connect (world_with (running_system (Some arms_unplugged) [])
                               (Some (Return loop1))) true
                      (__init__ (TelegripConfig_with false true)))))
  = Raise not_connected_disconnect
  /\ result (connect (world_with (running_system None []) (Some (Return loop1))) true
               (final (connect (world_with (running_system (Some arms_unplugged) [])
                                  (Some (Return loop1))) true
                         (__init__ (TelegripConfig_with false true)))))
     = Return tt.
Proof.
  destruct (failed_connect_then
              (world_with (running_system (Some arms_unplugged) [])
                 (Some (Return loop1))) true
              (__init__ (TelegripConfig_with false true)) serial_error
              eq_refl eq_refl)
    as [Hd Hretry].
  split.
  - rewrite (Hd asyncio_ok). reflexivity.
  - exact (proj1 (Hretry (world_with (running_system None []) (Some (Return loop1)))
                    true (running_system None []) eq_refl eq_refl)).
Defined.

Lemma without_control_loop_witness :
  result (connect (world_with system_failing_start (Some (Return loop1))) true
            (__init__ (TelegripConfig_with false true))) = Return tt
  /\ engage_calls
       (trace (connect (world_with system_failing_start (Some (Return loop1))) true
                 (__init__ (TelegripConfig_with false true))))
     = 0.
Proof.
  exact (proj1 (without_control_loop system_failing_start eq_refl)
           (world_with system_failing_start (Some (Return loop1))) true
           (__init__ (TelegripConfig_with false true))
           eq_refl eq_refl eq_refl eq_refl eq_refl).
Defined.

Lemma connect_settle_and_engage_witness :
  seconds_slept
    (trace (connect (world_with (running_system (Some arms_1_to_12) [])
                       (Some (Return loop1))) true
              (__init__ (TelegripConfig_with false true))))
  = 3%Z
  /\ engage_calls
       (trace (connect (world_with (running_system (Some arms_1_to_12) [])
                          (Some (Return loop1))) true
                 (__init__ (TelegripConfig_with false true))))
     = 1.
Proof.
  exact (connect_settle_and_engage
           (world_with (running_system (Some arms_1_to_12) []) (Some (Return loop1)))
           true (__init__ (TelegripConfig_with false true))
           (running_system (Some arms_1_to_12) []) eq_refl eq_refl eq_refl).
Defined.

Lemma get_action_values_witness :
  exists f,
    float_of (PyInt 3) = Return f
    /\ PyDict.get "elbow_flex.pos"
         [ ("shoulder_pan.pos", S754_finite false 4503599627370496 (-52));
           ("shoulder_lift.pos", S754_finite false 4503599627370496 (-51));
           ("elbow_flex.pos", S754_finite false 6755399441055744 (-51)) ]
       = Some f.
Proof.
  exact (proj1 (get_action_values
                  (connected_to TelegripConfig_default
                     (running_system (Some arms_three_angles) []))
                  (running_system (Some arms_three_angles) [])
                  {| robot_interface := Some arms_three_angles |}
                  arms_three_angles
                  [ ("shoulder_pan.pos", S754_finite false 4503599627370496 (-52));
                    ("shoulder_lift.pos", S754_finite false 4503599627370496 (-51));
                    ("elbow_flex.pos", S754_finite false 6755399441055744 (-51)) ]
                  eq_refl eq_refl eq_refl eq_refl eq_refl
                  2 "elbow_flex" eq_refl)
           eq_refl (map PyInt [1; 2; 3]%Z) (PyInt 3) eq_refl eq_refl).
Defined.

(* ===================================================================== *)
(** ** get_action on a subsystem without control loop *)
(* ===================================================================== *)

(** C5. A subsystem without a control loop exposes no robot
    interface, and [connect] accepts it: its test [control_loop and control_loop.robot_interface]
    skips the engage call and the adapter ends connected. [get_action]
    reads [control_loop.robot_interface] without that test: instead of
    logging a warning and returning the empty action record it raises
    an attribute error, logged as an error and re-raised, and caches
    nothing. *)
Lemma get_action_missing_control_loop_raises :
  result (connect (world_with running_without_control_loop (Some (Return loop1)))
            true (__init__ (TelegripConfig_with false true)))
  = Return tt
  /\ engage_calls
       (trace (connect (world_with running_without_control_loop
                          (Some (Return loop1)))
                 true (__init__ (TelegripConfig_with false true))))
     = 0
  /\ is_connected
       (connected_to (TelegripConfig_with false true) running_without_control_loop)
     = true
  /\ _telegrip_system
       (connected_to (TelegripConfig_with false true) running_without_control_loop)
     = Some running_without_control_loop
  /\ control_loop running_without_control_loop = None
  /\ get_action
       (connected_to (TelegripConfig_with false true) running_without_control_loop)
     = (Raise (none_has_no_attribute "robot_interface"),
        connected_to (TelegripConfig_with false true) running_without_control_loop,
        [error_logged (none_has_no_attribute "robot_interface")])
  /\ result (get_action
               (connected_to (TelegripConfig_with false true)
                  running_without_control_loop))
     <> Return PyDict.empty
  /\ ~ In interface_missing_logged
         (trace (get_action
                   (connected_to (TelegripConfig_with false true)
                      running_without_control_loop))).
Proof.
  repeat split; try reflexivity.
  - vm_compute. discriminate.
  - vm_compute. intros [H|[]]. discriminate H.
Qed.
